(** * eth-wallet: the connection manager and the transfer form

    A shallow embedding of [src/components/WalletConnect.tsx] and
    [src/components/SendTransaction.tsx].  The two React components are
    modelled as programs of a small state-and-exception monad over their
    [useState] cells; every call that leaves the component (the injected
    provider, the web3 client) is answered by an explicit environment
    record and written to a trace.  The ECMAScript primitives the
    components rely on ([parseFloat], [parseInt], [BigInt],
    [Number.prototype.toFixed], [Number.prototype.toString]) are embedded
    over binary64 as specified by [SpecFloat]. *)

From Stdlib Require Import ZArith List String Ascii Bool Lia.
From Stdlib Require Import SpecFloat.
Import ListNotations.

Local Open Scope string_scope.
Local Open Scope Z_scope.

(** ** Code units and the character classes of the lexical grammar

    A string is a sequence of code units below 256; the white space of
    the grammar that lies in that range is TAB, LF, VT, FF, CR, SP and
    NBSP. *)
Module Chars.

Definition code (c : ascii) : Z := Z.of_N (N_of_ascii c).

Definition isWhiteSpace (c : ascii) : bool :=
  let n := code c in
  ((9 <=? n) && (n <=? 13)) || (n =? 32) || (n =? 160).

Definition decDigit (c : ascii) : option Z :=
  let n := code c in
  if (48 <=? n) && (n <=? 57) then Some (n - 48) else None.

(** A digit of the given radix (2 to 36), as [parseInt] reads it. *)
Definition radixDigit (radix : Z) (c : ascii) : option Z :=
  let n := code c in
  let v := if (48 <=? n) && (n <=? 57) then n - 48
           else if (97 <=? n) && (n <=? 122) then n - 87
           else if (65 <=? n) && (n <=? 90) then n - 55
           else 36 in
  if v <? radix then Some v else None.

Definition ofDigit (d : Z) : ascii := ascii_of_N (Z.to_N (48 + d)).

Fixpoint trimStart (s : string) : string :=
  match s with
  | String c r => if isWhiteSpace c then trimStart r else s
  | EmptyString => s
  end.

(** The longest prefix of digits (read by [digit]) and what follows it. *)
Fixpoint takeDigits (digit : ascii -> option Z) (s : string)
  : list Z * string :=
  match s with
  | String c r =>
      match digit c with
      | Some d => let '(ds, rest) := takeDigits digit r in (d :: ds, rest)
      | None => ([], s)
      end
  | EmptyString => ([], s)
  end.

Definition digitsValue (radix : Z) (ds : list Z) : Z :=
  fold_left (fun acc d => acc * radix + d) ds 0.

Definition scanSign (s : string) : bool * string :=
  match s with
  | String "-" r => (true, r)
  | String "+" r => (false, r)
  | _ => (false, s)
  end.

(** The string without its first two code units. *)
Definition dropPrefix2 (s : string) : string :=
  String.substring 2 (String.length s - 2) s.

Fixpoint repeat0 (n : nat) : string :=
  match n with
  | O => ""
  | S n' => String "0" (repeat0 n')
  end.

End Chars.

(** ** Number: the binary64 values of the language *)
Module Number.

Definition prec : Z := 53.
Definition emax : Z := 1024.

Definition t : Type := spec_float.

Definition NaN : t := S754_nan.
Definition zero : t := S754_zero false.

Definition add : t -> t -> t := SFadd prec emax.
Definition mul : t -> t -> t := SFmul prec emax.
Definition div : t -> t -> t := SFdiv prec emax.

(** [x < y]; false as soon as one side is NaN. *)
Definition ltb : t -> t -> bool := SFltb.
(** [x > y]. *)
Definition gtb (x y : t) : bool := ltb y x.
(** [x == y] on numbers: both zeros are equal, NaN equals nothing. *)
Definition eqb : t -> t -> bool := SFeqb.

Definition isNaN (x : t) : bool :=
  match x with S754_nan => true | _ => false end.

Definition isFinite (x : t) : bool :=
  match x with S754_zero _ | S754_finite _ _ _ => true | _ => false end.

(** The binary64 value nearest to [p / q] (ties to even), for [0 <= p]
    and [0 < q].  The quotient is taken at 2^-1074, the spacing of the
    subnormal numbers, so no binary64 value needs a finer one; what the
    division leaves over becomes the rounding location. *)
Definition ofRatio (neg : bool) (p q : Z) : t :=
  if p =? 0 then S754_zero neg
  else
    let '(d, r) := Z.div_eucl (Z.shiftl p 1074) q in
    binary_round_aux prec emax neg d (-1074) (new_location q r).

(** The binary64 value nearest to the integer [z] (positive zero
    for 0). *)
Definition ofZ (z : Z) : t := binary_normalize prec emax z 0 false.

(** The mantissa and the exponent that represent the integer [p]
    once its bits are moved up to the 53rd place. *)
Definition aligned (p : positive) : positive * Z :=
  shl_align p 0 (Zpos (digits2_pos p) - 53).

(** The binary64 value nearest to [m * 10^e], for [0 <= m]. *)
Definition ofDecimal (neg : bool) (m e : Z) : t :=
  if 0 <=? e then binary_normalize prec emax (if neg then - (m * 10 ^ e) else m * 10 ^ e) 0 neg
  else ofRatio neg m (10 ^ (- e)).

(** *** Reading numbers: [parseFloat] and [parseInt] *)

(** The ExponentPart at the head of [s], worth 0 when there is none
    (an indicator that no digit follows is not part of the literal). *)
Definition scanExponent (s : string) : Z :=
  match s with
  | String c r =>
      if (Chars.code c =? 101) || (Chars.code c =? 69) then
        let '(neg, r') := Chars.scanSign r in
        match fst (Chars.takeDigits Chars.decDigit r') with
        | [] => 0
        | ds => if neg then - Chars.digitsValue 10 ds
                else Chars.digitsValue 10 ds
        end
      else 0
  | EmptyString => 0
  end.

(** The longest prefix of [s] that is a StrUnsignedDecimalLiteral other
    than Infinity, as the pair (m, e) with value m * 10^e. *)
Definition scanUnsignedDecimal (s : string) : option (Z * Z) :=
  let '(ip, r) := Chars.takeDigits Chars.decDigit s in
  match r with
  | String "." r' =>
      let '(fp, r'') := Chars.takeDigits Chars.decDigit r' in
      match ip, fp with
      | [], [] => None
      | _, _ => Some (Chars.digitsValue 10 (ip ++ fp),
                      scanExponent r'' - Z.of_nat (List.length fp))
      end
  | _ =>
      match ip with
      | [] => None
      | _ => Some (Chars.digitsValue 10 ip, scanExponent r)
      end
  end.

(** [parseFloat(string)]: leading white space is skipped, then the
    longest prefix that is a StrDecimalLiteral is read; NaN when there
    is none.  The value is rounded to nearest, ties to even. *)
Definition parseFloat (s : string) : t :=
  let '(neg, r) := Chars.scanSign (Chars.trimStart s) in
  if String.prefix "Infinity" r then S754_infinity neg
  else
    match scanUnsignedDecimal r with
    | Some (m, e) => ofDecimal neg m e
    | None => NaN
    end.

(** [parseInt(string, radix)]; [radix = 0] stands for an absent radix. *)
Definition parseInt (s : string) (radix : Z) : t :=
  let '(neg, r) := Chars.scanSign (Chars.trimStart s) in
  if negb (radix =? 0) && ((radix <? 2) || (36 <? radix)) then NaN
  else
    let stripPrefix := (radix =? 0) || (radix =? 16) in
    let R := if radix =? 0 then 10 else radix in
    let '(R, r) :=
      if stripPrefix && (String.prefix "0x" r || String.prefix "0X" r)
      then (16, Chars.dropPrefix2 r)
      else (R, r) in
    match fst (Chars.takeDigits (Chars.radixDigit R) r) with
    | [] => NaN
    | ds =>
        let mathInt := Chars.digitsValue R ds in
        if mathInt =? 0 then S754_zero neg
        else ofZ (if neg then - mathInt else mathInt)
    end.

(** *** Writing numbers: [toString] and [toFixed] *)

Fixpoint digitsFuel (fuel : nat) (n : Z) : list Z :=
  match fuel with
  | O => []
  | S f => if n <? 10 then [n] else digitsFuel f (n / 10) ++ [n mod 10]
  end.

(** The decimal digits of [n >= 0], most significant first. *)
Definition decimalDigits (n : Z) : list Z :=
  digitsFuel (S (Z.to_nat (Z.log2 n))) n.

Definition stringOfDigits (ds : list Z) : string :=
  fold_right (fun d acc => String (Chars.ofDigit d) acc) "" ds.

(** The decimal numeral of an integer, with a minus sign below zero. *)
Definition stringOfZ (z : Z) : string :=
  if z <? 0 then String "-" (stringOfDigits (decimalDigits (- z)))
  else stringOfDigits (decimalDigits z).

(** The exact value of the finite non-zero magnitude m * 2^e, as a
    fraction of positive integers. *)
Definition magnitude (m : positive) (e : Z) : Z * Z :=
  if 0 <=? e then (Zpos m * 2 ^ e, 1) else (Zpos m, 2 ^ (- e)).

(** floor (num / den / 10^e10). *)
Definition scaledFloor (num den e10 : Z) : Z :=
  if 0 <=? e10 then num / (den * 10 ^ e10) else (num * 10 ^ (- e10)) / den.

(** How num / den / 10^e10 sits between its floor and the next
    integer: below, at or above the midpoint. *)
Definition scaledHalf (num den e10 : Z) : comparison :=
  if 0 <=? e10 then
    let d := den * 10 ^ e10 in (2 * (num mod d)) ?= d
  else (2 * ((num * 10 ^ (- e10)) mod den)) ?= den.

(** The first [j >= 0], searched upwards, with 10^(-j) <= num / den. *)
Fixpoint leadingZeros (fuel : nat) (j num den : Z) : Z :=
  match fuel with
  | O => j
  | S f => if den <=? num * 10 ^ j then j
           else leadingZeros f (j + 1) num den
  end.

(** The [n] with 10^(n-1) <= num / den < 10^n. *)
Definition decimalExponent (num den : Z) : Z :=
  if den <=? num then Z.of_nat (List.length (decimalDigits (num / den)))
  else 1 - leadingZeros 400 1 num den.

(** An integer [s] of [k] digits for which s * 10^(n-k) reads back as
    [x], the one nearest to [x] when both neighbours do (the even one on
    a tie). *)
Definition candidate (x : t) (num den n k : Z) : option Z :=
  let lo := scaledFloor num den (n - k) in
  let hi := lo + 1 in
  match eqb (ofDecimal false lo (n - k)) x,
        eqb (ofDecimal false hi (n - k)) x with
  | true, true =>
      match scaledHalf num den (n - k) with
      | Lt => Some lo
      | Gt => Some hi
      | Eq => Some (if Z.even lo then lo else hi)
      end
  | true, false => Some lo
  | false, true => Some hi
  | false, false => None
  end.

Fixpoint shortest (fuel : nat) (x : t) (num den n k : Z) : Z * Z :=
  match fuel with
  | O => (scaledFloor num den (n - k), k)
  | S f =>
      match candidate x num den n k with
      | Some s => (s, k)
      | None => shortest f x num den n (k + 1)
      end
  end.

Fixpoint stripTrailingZeros (ds : list Z) : list Z :=
  match ds with
  | [] => []
  | d :: r =>
      match stripTrailingZeros r with
      | [] => if d =? 0 then [] else [d]
      | r' => d :: r'
      end
  end.

(** The digits and the exponent [n] of Number::toString for the
    magnitude m * 2^e: as few digits as read back as the same value,
    with value 0.d1d2...dk * 10^n. *)
Definition shortestDigits (m : positive) (e : Z) : list Z * Z :=
  let '(num, den) := magnitude m e in
  let nv := decimalExponent num den in
  let '(s, k) := shortest 17 (S754_finite false m e) num den nv 1 in
  let ds := decimalDigits s in
  (stripTrailingZeros ds, nv - k + Z.of_nat (List.length ds)).

(** The layout of Number::toString for [k] digits and exponent [n]. *)
Definition layoutDigits (ds : list Z) (n : Z) : string :=
  let k := Z.of_nat (List.length ds) in
  if (k <=? n) && (n <=? 21) then
    stringOfDigits ds ++ Chars.repeat0 (Z.to_nat (n - k))
  else if (0 <? n) && (n <=? 21) then
    stringOfDigits (firstn (Z.to_nat n) ds) ++ "."
      ++ stringOfDigits (skipn (Z.to_nat n) ds)
  else if (-6 <? n) && (n <=? 0) then
    "0." ++ Chars.repeat0 (Z.to_nat (- n)) ++ stringOfDigits ds
  else
    let ex := (if n - 1 <? 0 then "-" else "+")
                ++ stringOfDigits (decimalDigits (Z.abs (n - 1))) in
    match ds with
    | [d] => stringOfDigits [d] ++ "e" ++ ex
    | _ => stringOfDigits (firstn 1 ds) ++ "."
             ++ stringOfDigits (skipn 1 ds) ++ "e" ++ ex
    end.

(** [Number.prototype.toString()], also the conversion a template
    literal applies to a number. *)
Definition toString (x : t) : string :=
  match x with
  | S754_nan => "NaN"
  | S754_zero _ => "0"
  | S754_infinity neg => if neg then "-Infinity" else "Infinity"
  | S754_finite neg m e =>
      let '(ds, n) := shortestDigits m e in
      (if neg then "-" else "") ++ layoutDigits ds n
  end.

(** [Number.prototype.toFixed(f)] for [0 <= f]: the integer nearest to
    x * 10^f (the larger one on a tie), laid out with [f] decimals;
    values that are not finite or reach 10^21 are written by
    [toString]. *)
Definition toFixed (x : t) (f : Z) : string :=
  match x with
  | S754_nan | S754_infinity _ => toString x
  | S754_zero _ => "0" ++ (if f =? 0 then "" else "." ++ Chars.repeat0 (Z.to_nat f))
  | S754_finite neg m e =>
      let '(num, den) := magnitude m e in
      if 10 ^ 21 * den <=? num then toString x
      else
        let n := (2 * num * 10 ^ f + den) / (2 * den) in
        let ds := decimalDigits n in
        let ds := (repeat 0 (Z.to_nat f + 1 - List.length ds)%nat ++ ds)%list in
        let k := List.length ds in
        (if neg then "-" else "")
          ++ stringOfDigits (firstn (k - Z.to_nat f)%nat ds)
          ++ (if f =? 0 then ""
              else "." ++ stringOfDigits (skipn (k - Z.to_nat f)%nat ds))
  end.

End Number.

(** ** BigInt: the arbitrary-precision integers of the language *)
Module BigInt.

Definition allWhiteSpace (s : string) : bool :=
  match Chars.trimStart s with
  | EmptyString => true
  | _ => false
  end.

(** Digits of [radix] up to the end of the string, trailing white space
    allowed. *)
Definition digitsToEnd (radix : Z) (s : string) : option Z :=
  let '(ds, rest) := Chars.takeDigits (Chars.radixDigit radix) s in
  match ds with
  | [] => None
  | _ => if allWhiteSpace rest then Some (Chars.digitsValue radix ds) else None
  end.

(** [BigInt(string)]: the StringIntegerLiteral grammar (white space
    around a signed decimal or an unsigned 0x, 0o or 0b literal; the
    empty literal is 0).  [None] is the SyntaxError the call throws. *)
Definition ofString (s : string) : option Z :=
  let t := Chars.trimStart s in
  match t with
  | EmptyString => Some 0
  | _ =>
      if String.prefix "0x" t || String.prefix "0X" t
      then digitsToEnd 16 (Chars.dropPrefix2 t)
      else if String.prefix "0o" t || String.prefix "0O" t
      then digitsToEnd 8 (Chars.dropPrefix2 t)
      else if String.prefix "0b" t || String.prefix "0B" t
      then digitsToEnd 2 (Chars.dropPrefix2 t)
      else
        let '(neg, r) := Chars.scanSign t in
        match digitsToEnd 10 r with
        | Some v => Some (if neg then - v else v)
        | None => None
        end
  end.

(** [BigInt.prototype.toString()]. *)
Definition toString (z : Z) : string := Number.stringOfZ z.

End BigInt.

(** ** The unit conversions of the web3 client library *)
Module Web3Utils.

Inductive EtherUnits := gwei | ether.

(** The number of decimals between the unit and the minor unit (wei). *)
Definition decimals (u : EtherUnits) : nat :=
  match u with gwei => 9%nat | ether => 18%nat end.

(** An unsigned decimal numeral that fills the whole string: the digits
    before the point and the digits after it. *)
Definition readDecimal (s : string) : option (list Z * list Z) :=
  let '(ip, r) := Chars.takeDigits Chars.decDigit s in
  match ip, r with
  | [], _ => None
  | _, EmptyString => Some (ip, [])
  | _, String "." r' =>
      match Chars.takeDigits Chars.decDigit r' with
      | (d :: fp, EmptyString) => Some (ip, d :: fp)
      | _ => None
      end
  | _, _ => None
  end.

(** Modelled from the spec: [web3.utils.toWei] belongs to the external
    client library, of which the specification fixes the scaling only
    (base 10^18 for the major unit, hence 10^9 for gwei).  The numeral
    is scaled exactly, as an integer; [None] is the exception the
    library raises on arguments it cannot convert, here everything but
    an unsigned decimal numeral that is a whole number of wei. *)
Definition toWei (value : string) (u : EtherUnits) : option string :=
  match readDecimal value with
  | Some (ip, fp) =>
      if (List.length fp <=? decimals u)%nat then
        Some (BigInt.toString
                (Chars.digitsValue 10 (ip ++ fp)
                 * 10 ^ Z.of_nat (decimals u - List.length fp)))
      else None
  | None => None
  end.

(** Modelled from the spec: [web3.utils.fromWei], the inverse scaling
    from an integer numeral of minor units to the decimal numeral of the
    unit, without trailing zeros in the fraction. *)
Definition fromWei (value : string) (u : EtherUnits) : option string :=
  match readDecimal value with
  | Some (ip, []) =>
      let n := Chars.digitsValue 10 ip in
      let scale := 10 ^ Z.of_nat (decimals u) in
      let frac := Number.decimalDigits (n mod scale) in
      let frac := (repeat 0 (decimals u - List.length frac) ++ frac)%list in
      match Number.stripTrailingZeros frac with
      | [] => Some (Number.stringOfZ (n / scale))
      | fr => Some (Number.stringOfZ (n / scale) ++ "."
                      ++ Number.stringOfDigits fr)
      end
  | _ => None
  end.

End Web3Utils.

(** ** Exceptions, programs and the world outside the components *)

(** What a [throw] or a rejected promise carries: an instance of
    [Error] with its message, or any other value that has properties
    (a string, a plain object), either of which may have a [message]
    and a numeric [code] property; or [null] or [undefined], which have
    no property at all. *)
Inductive Thrown :=
| ErrorObject (message : string) (code : option Z)
| OtherValue (message : option string) (code : option Z)
| Nullish.

Inductive Outcome (A : Type) :=
| Returned (a : A)
| Threw (t : Thrown).
Arguments Returned {A} a.
Arguments Threw {A} t.

Module Eth.

(** The transaction object [sendTransaction] builds. *)
Record Transaction := {
  from : string;
  to : string;
  value : string;
  gas : string;
  gasPrice : string
}.

Record Receipt := { transactionHash : string }.

(** The requests that reach the wallet provider, directly or through
    the web3 client. *)
Inductive Request :=
| eth_accounts
| eth_requestAccounts
| eth_chainId
| eth_getBalance (address : option string)
| eth_gasPrice
| eth_estimateGas (from to value : string)
| eth_sendTransaction (tx : Transaction)
| wallet_switchEthereumChain (chainId : string)
| wallet_addEthereumChain (chainId : string).

(** [window.ethereum]: how the injected provider answers
    [request({method})]. *)
Record Provider := {
  accounts : Outcome (list string);
  requestAccounts : Outcome (list string);
  chainId : Outcome string;
  switchEthereumChain : string -> Outcome unit;
  addEthereumChain : string -> Outcome unit
}.

(** A client instance, [new Web3(provider)]: the pure helpers of
    [web3.utils] and the calls of [web3.eth] that it forwards. *)
Record Web3 := {
  utils_isAddress : string -> Outcome bool;
  utils_toWei : string -> Web3Utils.EtherUnits -> Outcome string;
  utils_fromWei : string -> Web3Utils.EtherUnits -> Outcome string;
  getBalance : option string -> Outcome Z;
  getGasPrice : Outcome Z;
  estimateGas : string -> string -> string -> Outcome Z;
  sendTransaction : Transaction -> Outcome Receipt
}.

(** The page's environment: the injected provider, if any, and the
    constructor of the client library. *)
Record Browser := {
  ethereum : option Provider;
  newWeb3 : Provider -> Web3
}.

(** The client's conversions follow the scaling the specification
    requires wherever that scaling is defined. *)
Definition conforms (w : Web3) : Prop :=
  (forall v u r, Web3Utils.toWei v u = Some r -> utils_toWei w v u = Returned r)
  /\ (forall v u r, Web3Utils.fromWei v u = Some r ->
        utils_fromWei w v u = Returned r).

End Eth.

(** A component's hooks state together with the requests it has sent,
    each with the state that was current while it was in flight. *)
Record World (St : Type) := {
  state : St;
  trace : list (Eth.Request * St)
}.
Arguments state {St} w.
Arguments trace {St} w.

(** Programs over a world [W] that return or throw. *)
Definition M (W A : Type) : Type := W -> Outcome A * W.

Section Programs.
Context {W : Type}.

Definition ret {A} (a : A) : M W A := fun w => (Returned a, w).

Definition bind {A B} (m : M W A) (k : A -> M W B) : M W B :=
  fun w =>
    match m w with
    | (Returned a, w') => k a w'
    | (Threw t, w') => (Threw t, w')
    end.

(** [try { body } catch (e) { handler(e) }]. *)
Definition tryCatch {A} (body : M W A) (handler : Thrown -> M W A) : M W A :=
  fun w =>
    match body w with
    | (Returned a, w') => (Returned a, w')
    | (Threw t, w') => handler t w'
    end.

(** The result of a call that touches no state. *)
Definition lift {A} (o : Outcome A) : M W A := fun w => (o, w).

End Programs.

Notation "x <- m ;; k" := (bind m (fun x => k))
  (at level 61, m at next level, right associativity).
Notation "m ;;; k" := (bind m (fun _ => k))
  (at level 61, right associativity).

Section Hooks.
Context {St : Type}.

Definition getState : M (World St) St := fun w => (Returned (state w), w).

(** A state setter called with an updater function. *)
Definition setState (f : St -> St) : M (World St) unit :=
  fun w => (Returned tt, {| state := f (state w); trace := trace w |}).

(** An awaited request: it is recorded and its answer comes back. *)
Definition request {A} (r : Eth.Request) (answer : Outcome A)
  : M (World St) A :=
  fun w => (answer, {| state := state w;
                       trace := (trace w ++ [(r, state w)])%list |}).

End Hooks.

(** A string-or-null tested for truth: null and the empty string are
    both falsy. *)
Definition truthy (o : option string) : option string :=
  match o with
  | Some EmptyString | None => None
  | Some s => Some s
  end.

Definition nonEmpty (s : string) : bool :=
  match s with EmptyString => false | _ => true end.

(** ** components/SendTransaction.tsx: the transfer form *)
Module SendTransaction.

Record SendTransactionProps := {
  web3 : option Eth.Web3;
  account : option string;
  balance : option string;
  networkSymbol : string
}.

Record TransactionState := {
  to : string;
  amount : string;
  gasPrice : string;
  gasLimit : string;
  isProcessing : bool;
  error : option string;
  success : option string
}.

(** The argument of [useState]. *)
Definition initialState : TransactionState :=
  {| to := ""; amount := ""; gasPrice := ""; gasLimit := "21000";
     isProcessing := false; error := None; success := None |}.

Definition isValidAddress (p : SendTransactionProps) (address : string)
  : bool :=
  match web3 p with
  | None => false
  | Some w =>
      match Eth.utils_isAddress w address with
      | Returned b => b
      | Threw _ => false
      end
  end.

Definition isValidAmount (amount : string) : bool :=
  let num := Number.parseFloat amount in
  negb (Number.isNaN num) && Number.gtb num Number.zero.

Definition withGasPrice (gwei : string) (prev : TransactionState)
  : TransactionState :=
  {| to := to prev; amount := amount prev; gasPrice := gwei;
     gasLimit := gasLimit prev; isProcessing := isProcessing prev;
     error := error prev; success := success prev |}.

Definition withGasLimit (limit : string) (prev : TransactionState)
  : TransactionState :=
  {| to := to prev; amount := amount prev; gasPrice := gasPrice prev;
     gasLimit := limit; isProcessing := isProcessing prev;
     error := error prev; success := success prev |}.

(** [getGasPrice]: the price the network suggests, in gwei, or the
    default of 20 gwei when it cannot be had. *)
Definition getGasPrice (p : SendTransactionProps)
  : M (World TransactionState) unit :=
  match web3 p with
  | None => ret tt
  | Some w =>
      tryCatch
        (gasPrice <- request Eth.eth_gasPrice (Eth.getGasPrice w) ;;
         gasPriceInGwei <- lift (Eth.utils_fromWei w (BigInt.toString gasPrice)
                                   Web3Utils.gwei) ;;
         setState (withGasPrice gasPriceInGwei))
        (fun _ => setState (withGasPrice "20"))
  end.

(** [estimateGas]: the provider's estimate for the transfer, or the
    21000 of a simple transfer when it cannot be had. *)
Definition estimateGas (p : SendTransactionProps)
  : M (World TransactionState) unit :=
  ts <- getState ;;
  match web3 p, truthy (account p) with
  | Some w, Some acct =>
      if nonEmpty (to ts) && nonEmpty (amount ts) then
        tryCatch
          (amountInWei <- lift (Eth.utils_toWei w (amount ts) Web3Utils.ether) ;;
           gasLimit <- request (Eth.eth_estimateGas acct (to ts) amountInWei)
                               (Eth.estimateGas w acct (to ts) amountInWei) ;;
           setState (withGasLimit (BigInt.toString gasLimit)))
          (fun _ => setState (withGasLimit "21000"))
      else ret tt
  | _, _ => ret tt
  end.

(** The [try] block of [calculateFee]: the fee in wei as a product of
    big integers, converted to the major unit by the client. *)
Definition preciseFee (w : Eth.Web3) (ts : TransactionState)
  : Outcome string :=
  match Eth.utils_toWei w (gasPrice ts) Web3Utils.gwei with
  | Returned gasPriceInWei =>
      match BigInt.ofString (gasLimit ts) with
      | Some gasLimit =>
          match BigInt.ofString gasPriceInWei with
          | Some gasPrice =>
              let feeInWei := gasPrice * gasLimit in
              Eth.utils_fromWei w (BigInt.toString feeInWei) Web3Utils.ether
          | None => Threw (ErrorObject "SyntaxError" None)
          end
      | None => Threw (ErrorObject "SyntaxError" None)
      end
  | Threw t => Threw t
  end.

(** The [catch] block of [calculateFee].  Nothing in it can throw, so
    its own [catch] never runs. *)
Definition fallbackFee (ts : TransactionState) : string :=
  let gasPrice := Number.parseFloat (gasPrice ts) in
  let gasLimit := Number.parseInt (gasLimit ts) 0 in
  let feeInGwei := Number.mul gasPrice gasLimit in
  Number.toString (Number.div feeInGwei (Number.ofZ (10 ^ 9))).

Definition calculateFee (p : SendTransactionProps) (ts : TransactionState)
  : string :=
  match web3 p with
  | Some w =>
      if nonEmpty (gasPrice ts) && nonEmpty (gasLimit ts) then
        match preciseFee w ts with
        | Returned fee => fee
        | Threw _ => fallbackFee ts
        end
      else "0"
  | None => "0"
  end.

(** The figures [sendTransaction] compares. *)
Definition currentBalance (p : SendTransactionProps) : Number.t :=
  Number.parseFloat (match truthy (balance p) with
                     | Some b => b
                     | None => "0"
                     end).

Definition amountOf (ts : TransactionState) : Number.t :=
  Number.parseFloat (amount ts).

Definition feeOf (p : SendTransactionProps) (ts : TransactionState)
  : Number.t :=
  Number.parseFloat (calculateFee p ts).

Definition totalCostOf (p : SendTransactionProps) (ts : TransactionState)
  : Number.t :=
  Number.add (amountOf ts) (feeOf p ts).

Definition insufficientBalance (symbol : string) (totalCost amount fee : Number.t)
  : string :=
  "Insufficient balance. You need " ++ Number.toFixed totalCost 6 ++ " "
    ++ symbol ++ " (" ++ Number.toFixed amount 6 ++ " + "
    ++ Number.toFixed fee 6 ++ " fee)".

(** The updaters handed to [setTransactionState]. *)
Definition withError (msg : string) (prev : TransactionState)
  : TransactionState :=
  {| to := to prev; amount := amount prev; gasPrice := gasPrice prev;
     gasLimit := gasLimit prev; isProcessing := isProcessing prev;
     error := Some msg; success := success prev |}.

Definition submitting (prev : TransactionState) : TransactionState :=
  {| to := to prev; amount := amount prev; gasPrice := gasPrice prev;
     gasLimit := gasLimit prev; isProcessing := true;
     error := None; success := None |}.

Definition succeeded (hash : string) (prev : TransactionState)
  : TransactionState :=
  {| to := ""; amount := ""; gasPrice := gasPrice prev;
     gasLimit := gasLimit prev; isProcessing := false;
     error := error prev;
     success := Some ("Transaction successful! Hash: " ++ hash) |}.

Definition failed (errorMessage : string) (prev : TransactionState)
  : TransactionState :=
  {| to := to prev; amount := amount prev; gasPrice := gasPrice prev;
     gasLimit := gasLimit prev; isProcessing := false;
     error := Some errorMessage; success := success prev |}.

(** [error instanceof Error ? error.message : 'Transaction failed']. *)
Definition errorMessage (e : Thrown) : string :=
  match e with
  | ErrorObject message _ => message
  | OtherValue _ _ | Nullish => "Transaction failed"
  end.

(** The [try] block of [sendTransaction], for the client [w], the
    account [acct] and the state [ts] the handler closed over. *)
Definition submit (w : Eth.Web3) (acct : string) (ts : TransactionState)
  : M (World TransactionState) unit :=
  amountInWei <- lift (Eth.utils_toWei w (amount ts) Web3Utils.ether) ;;
  gasPriceInWei <- lift (Eth.utils_toWei w (gasPrice ts) Web3Utils.gwei) ;;
  let transaction :=
    {| Eth.from := acct; Eth.to := to ts; Eth.value := amountInWei;
       Eth.gas := gasLimit ts; Eth.gasPrice := gasPriceInWei |} in
  receipt <- request (Eth.eth_sendTransaction transaction)
                     (Eth.sendTransaction w transaction) ;;
  setState (succeeded (Eth.transactionHash receipt)).

(** [sendTransaction]: the handler of the send button.  [ts] is the
    state of the render the handler belongs to; the setters act on the
    state that is current when they run. *)
Definition sendTransaction (p : SendTransactionProps)
  : M (World TransactionState) unit :=
  ts <- getState ;;
  match web3 p, truthy (account p) with
  | Some w, Some acct =>
      if negb (isValidAddress p (to ts)) then
        setState (withError "Invalid recipient address")
      else if negb (isValidAmount (amount ts)) then
        setState (withError "Invalid amount")
      else
        let currentBalance := currentBalance p in
        let amount := amountOf ts in
        let fee := feeOf p ts in
        let totalCost := totalCostOf p ts in
        if Number.gtb totalCost currentBalance then
          setState (withError
                      (insufficientBalance (networkSymbol p) totalCost amount fee))
        else
          setState submitting ;;;
          tryCatch (submit w acct ts)
                   (fun e => setState (failed (errorMessage e)))
  | _, _ => setState (withError "Wallet not connected")
  end.

End SendTransaction.

(** ** components/WalletConnect.tsx: the connection manager *)
Module WalletConnect.

Record Network := {
  chainId : option string;
  name : option string;
  isTestnet : bool
}.

Record WalletState := {
  isConnected : bool;
  account : option string;
  balance : option string;
  error : option string;
  network : Network;
  showSendForm : bool
}.

(** The two [useState] cells of the component. *)
Record Hooks := {
  walletState : WalletState;
  web3 : option Eth.Web3
}.

(** The argument of [useState<WalletState>]. *)
Definition initialWalletState : WalletState :=
  {| isConnected := false; account := None; balance := None; error := None;
     network := {| chainId := None; name := None; isTestnet := false |};
     showSendForm := false |}.

Definition initialHooks : Hooks :=
  {| walletState := initialWalletState; web3 := None |}.

Definition initialWorld : World Hooks :=
  {| state := initialHooks; trace := [] |}.

(** *** The network table *)
Module Info.
Record t := { name : string; isTestnet : bool; symbol : string }.
End Info.

Definition NETWORKS : list (string * Info.t) :=
  [ ("0x1", {| Info.name := "Ethereum Mainnet"; Info.isTestnet := false; Info.symbol := "ETH" |});
    ("0x5", {| Info.name := "Goerli Testnet"; Info.isTestnet := true; Info.symbol := "ETH" |});
    ("0xaa36a7", {| Info.name := "Sepolia Testnet"; Info.isTestnet := true; Info.symbol := "ETH" |});
    ("0x89", {| Info.name := "Polygon Mainnet"; Info.isTestnet := false; Info.symbol := "MATIC" |});
    ("0x13881", {| Info.name := "Mumbai Testnet"; Info.isTestnet := true; Info.symbol := "MATIC" |});
    ("0xa", {| Info.name := "Optimism"; Info.isTestnet := false; Info.symbol := "ETH" |});
    ("0xa4b1", {| Info.name := "Arbitrum One"; Info.isTestnet := false; Info.symbol := "ETH" |}) ].

(** [NETWORKS] is an object literal, so a property access on it also
    finds what every object inherits from [Object.prototype]; all of
    these members are functions or objects, hence truthy. *)
Definition inheritedKeys : list string :=
  [ "constructor"; "__proto__"; "hasOwnProperty"; "isPrototypeOf";
    "propertyIsEnumerable"; "toLocaleString"; "toString"; "valueOf";
    "__defineGetter__"; "__defineSetter__"; "__lookupGetter__";
    "__lookupSetter__" ].

Fixpoint ownProperty (table : list (string * Info.t)) (key : string)
  : option Info.t :=
  match table with
  | [] => None
  | (k, v) :: rest => if String.eqb k key then Some v else ownProperty rest key
  end.

(** What [getNetworkInfo] hands back: a descriptor, or the inherited
    member the key names (which has none of a descriptor's fields). *)
Inductive Found :=
| Descriptor (info : Info.t)
| Inherited (key : string).

(** [NETWORKS[chainId]]; [None] is [undefined]. *)
Definition lookup (key : string) : option Found :=
  match ownProperty NETWORKS key with
  | Some info => Some (Descriptor info)
  | None =>
      if existsb (String.eqb key) inheritedKeys then Some (Inherited key)
      else None
  end.

Definition getNetworkInfo (chainId : string) : Found :=
  match lookup chainId with
  | Some found => found
  | None =>
      Descriptor
        {| Info.name := "Chain ID: " ++ Number.toString (Number.parseInt chainId 16);
           Info.isTestnet := false;
           Info.symbol := "ETH" |}
  end.

(** The object [getCurrentNetwork] resolves to.  A field that the
    object lacks reads as [undefined]: [None] for a string, and false
    for [isTestnet], which is only ever tested for truth. *)
Module Current.
Record t := {
  chainId : option string;
  name : option string;
  isTestnet : bool;
  symbol : option string
}.
End Current.

Definition unknownNetwork : Current.t :=
  {| Current.chainId := None; Current.name := Some "Unknown";
     Current.isTestnet := false; Current.symbol := Some "ETH" |}.

(** [{ chainId, ...networkInfo }]: the spread copies the own enumerable
    properties, of which an inherited member has none. *)
Definition spreadInfo (chainId : string) (found : Found) : Current.t :=
  match found with
  | Descriptor info =>
      {| Current.chainId := Some chainId;
         Current.name := Some (Info.name info);
         Current.isTestnet := Info.isTestnet info;
         Current.symbol := Some (Info.symbol info) |}
  | Inherited _ =>
      {| Current.chainId := Some chainId; Current.name := None;
         Current.isTestnet := false; Current.symbol := None |}
  end.

Definition getCurrentNetwork (env : Eth.Browser) : M (World Hooks) Current.t :=
  tryCatch
    (match Eth.ethereum env with
     | None => ret unknownNetwork
     | Some provider =>
         chainId <- request Eth.eth_chainId (Eth.chainId provider) ;;
         ret (spreadInfo chainId (getNetworkInfo chainId))
     end)
    (fun _ => ret unknownNetwork).

(** *** The setters *)

Definition setWalletState (f : WalletState -> WalletState)
  : M (World Hooks) unit :=
  setState (fun h => {| walletState := f (walletState h); web3 := web3 h |}).

Definition setWeb3 (w : option Eth.Web3) : M (World Hooks) unit :=
  setState (fun h => {| walletState := walletState h; web3 := w |}).

Definition withError (msg : string) (prev : WalletState) : WalletState :=
  {| isConnected := isConnected prev; account := account prev;
     balance := balance prev; error := Some msg;
     network := network prev; showSendForm := showSendForm prev |}.

Definition networkOf (n : Current.t) : Network :=
  {| chainId := Current.chainId n; name := Current.name n;
     isTestnet := Current.isTestnet n |}.

(** *** The operations *)

Definition connectWallet (env : Eth.Browser) : M (World Hooks) unit :=
  tryCatch
    (match Eth.ethereum env with
     | Some provider =>
         accounts <- request Eth.eth_requestAccounts
                             (Eth.requestAccounts provider) ;;
         let web3Instance := Eth.newWeb3 env provider in
         setWeb3 (Some web3Instance) ;;;
         let account := hd_error accounts in
         network <- getCurrentNetwork env ;;
         balance <- request (Eth.eth_getBalance account)
                            (Eth.getBalance web3Instance account) ;;
         balanceInEth <- lift (Eth.utils_fromWei web3Instance
                                 (BigInt.toString balance) Web3Utils.ether) ;;
         setWalletState (fun _ =>
           {| isConnected := true; account := account;
              balance := Some balanceInEth; error := None;
              network := networkOf network; showSendForm := false |})
     | None => setWalletState (withError "Please install MetaMask!")
     end)
    (fun _ => setWalletState (withError "Error connecting to wallet")).

Definition checkIfWalletIsConnected (env : Eth.Browser)
  : M (World Hooks) unit :=
  tryCatch
    (match Eth.ethereum env with
     | Some provider =>
         accounts <- request Eth.eth_accounts (Eth.accounts provider) ;;
         if (0 <? Z.of_nat (List.length accounts)) then connectWallet env
         else ret tt
     | None =>
         setWalletState (withError "Please install MetaMask to use this app!")
     end)
    (fun _ => setWalletState (withError "Error checking wallet connection")).

Definition disconnectWallet : M (World Hooks) unit :=
  setWalletState (fun _ =>
    {| isConnected := false; account := None; balance := None; error := None;
       network := {| chainId := None; name := None; isTestnet := false |};
       showSendForm := false |}) ;;;
  setWeb3 None.

Definition updateBalance (env : Eth.Browser) : M (World Hooks) unit :=
  h <- getState ;;
  match web3 h, truthy (account (walletState h)) with
  | Some w, Some acct =>
      tryCatch
        (balance <- request (Eth.eth_getBalance (Some acct))
                            (Eth.getBalance w (Some acct)) ;;
         balanceInEth <- lift (Eth.utils_fromWei w (BigInt.toString balance)
                                 Web3Utils.ether) ;;
         network <- getCurrentNetwork env ;;
         setWalletState (fun prev =>
           {| isConnected := isConnected prev; account := account prev;
              balance := Some balanceInEth; error := error prev;
              network := networkOf network;
              showSendForm := showSendForm prev |}))
        (fun _ => ret tt)
  | _, _ => ret tt
  end.

(** [err.code], read without a guard: [undefined] ([None]) where the
    value has no numeric property of that name, and a TypeError where
    the value is null or undefined, of which no property can be read. *)
Definition codeOf (e : Thrown) : Outcome (option Z) :=
  match e with
  | ErrorObject _ c | OtherValue _ c => Returned c
  | Nullish => Threw (ErrorObject "TypeError" None)
  end.

Definition switchToMainnet (env : Eth.Browser) : M (World Hooks) unit :=
  match Eth.ethereum env with
  | None => ret tt
  | Some provider =>
      tryCatch
        (request (Eth.wallet_switchEthereumChain "0x1")
                 (Eth.switchEthereumChain provider "0x1"))
        (fun e =>
           code <- lift (codeOf e) ;;
           match code with
           | Some 4902 =>
               tryCatch
                 (request (Eth.wallet_addEthereumChain "0x1")
                          (Eth.addEthereumChain provider "0x1"))
                 (fun _ => ret tt)
           | _ => ret tt
           end)
  end.

Definition toggleSendForm : M (World Hooks) unit :=
  setWalletState (fun prev =>
    {| isConnected := isConnected prev; account := account prev;
       balance := balance prev; error := error prev;
       network := network prev;
       showSendForm := negb (showSendForm prev) |}).

(** The listeners registered on the provider. *)
Definition onAccountsChanged (env : Eth.Browser) (accounts : list string)
  : M (World Hooks) unit :=
  if Z.of_nat (List.length accounts) =? 0 then disconnectWallet
  else connectWallet env.

Definition onChainChanged (env : Eth.Browser) (chainId : string)
  : M (World Hooks) unit :=
  h <- getState ;;
  if isConnected (walletState h) then connectWallet env else ret tt.

Definition getNetworkSymbol (ws : WalletState) : option string :=
  match truthy (chainId (network ws)) with
  | None => Some "ETH"
  | Some chainId =>
      match getNetworkInfo chainId with
      | Descriptor info => Some (Info.symbol info)
      | Inherited _ => None
      end
  end.

(** *** The life of the component *)

(** What can start one of the operations: the effect that runs on
    mount, the buttons, the 30 second timer and the provider's
    events. *)
Inductive Action :=
| Mount
| ClickConnect
| ClickRefresh
| ClickToggle
| ClickDisconnect
| ClickSwitch
| Tick
| AccountsChanged (accounts : list string)
| ChainChanged (chainId : string).

Definition perform (env : Eth.Browser) (a : Action) : M (World Hooks) unit :=
  match a with
  | Mount => checkIfWalletIsConnected env
  | ClickConnect => connectWallet env
  | ClickRefresh | Tick => updateBalance env
  | ClickToggle => toggleSendForm
  | ClickDisconnect => disconnectWallet
  | ClickSwitch => switchToMainnet env
  | AccountsChanged accounts => onAccountsChanged env accounts
  | ChainChanged chainId => onChainChanged env chainId
  end.

(** What the page offers in a given state: the connect button is
    rendered while disconnected, the other buttons and the timer exist
    while connected, and the listeners are only registered on a
    provider that is there. *)
Definition offered (env : Eth.Browser) (h : Hooks) (a : Action) : bool :=
  let ws := walletState h in
  match a with
  | Mount => true
  | ClickConnect => negb (isConnected ws)
  | ClickRefresh | ClickToggle | ClickDisconnect | Tick => isConnected ws
  | ClickSwitch => isConnected ws && isTestnet (network ws)
  | AccountsChanged _ | ChainChanged _ =>
      match Eth.ethereum env with Some _ => true | None => false end
  end.

(** The worlds the component can be in when every environment it has
    run in satisfies [envs]. *)
Inductive reachable (envs : Eth.Browser -> Prop) : World Hooks -> Prop :=
| reachable_initial : reachable envs initialWorld
| reachable_step w env a :
    reachable envs w -> envs env -> offered env (state w) a = true ->
    reachable envs (snd (perform env a w)).

Definition noProvider (env : Eth.Browser) : Prop := Eth.ethereum env = None.

(** A connected component holds a client. *)
Definition holdsClient (h : Hooks) : Prop :=
  isConnected (walletState h) = true -> web3 h <> None.

End WalletConnect.

(** ** Reading the specification

    The specification speaks of strings that contain figures, of
    amounts that are numeric, finite and positive, and of an amount and
    a fee that together exceed a balance. *)

(** [sub] occurs in [s]. *)
Fixpoint contains (s sub : string) : bool :=
  String.prefix sub s
  || match s with
     | String _ r => contains r sub
     | EmptyString => false
     end.

(** An amount as the specification words it: numeric (it denotes a
    number), finite, and strictly greater than zero. *)
Definition numericFinitePositive (amount : string) : bool :=
  let num := Number.parseFloat amount in
  negb (Number.isNaN num) && Number.isFinite num && Number.gtb num Number.zero.



(** The id a hexadecimal chain-id string denotes, read exactly: 0x and
    at least one hexadecimal digit, nothing else. *)
Definition hexQuantity (chainId : string) : option Z :=
  if String.prefix "0x" chainId then
    match Chars.takeDigits (Chars.radixDigit 16) (Chars.dropPrefix2 chainId) with
    | (d :: ds, EmptyString) => Some (Chars.digitsValue 16 (d :: ds))
    | _ => None
    end
  else None.

(** The decimal numeral of that id. *)
Definition decodedChainId (chainId : string) : option string :=
  match hexQuantity chainId with
  | Some n => Some (BigInt.toString n)
  | None => None
  end.

(** ** A sample page, used to run the components on concrete inputs *)
Module Sample.

(** The shape of an address: 0x and forty hexadecimal digits. *)
Definition addressShape (a : string) : bool :=
  String.prefix "0x" a && (String.length a =? 42)%nat
  && match Chars.takeDigits (Chars.radixDigit 16) (Chars.dropPrefix2 a) with
     | (_, EmptyString) => true
     | _ => false
     end.

Definition conversion (o : option string) : Outcome string :=
  match o with
  | Some r => Returned r
  | None => Threw (ErrorObject "invalid number value" None)
  end.

(** A client whose submissions are answered by [answer]. *)
Definition client (answer : Outcome Eth.Receipt) : Eth.Web3 :=
  {| Eth.utils_isAddress := fun a => Returned (addressShape a);
     Eth.utils_toWei := fun v u => conversion (Web3Utils.toWei v u);
     Eth.utils_fromWei := fun v u => conversion (Web3Utils.fromWei v u);
     Eth.getBalance := fun _ => Returned (10 ^ 18);
     Eth.getGasPrice := Returned (20 * 10 ^ 9);
     Eth.estimateGas := fun _ _ _ => Returned 21000;
     Eth.sendTransaction := fun _ => answer |}.

Definition receipt : Eth.Receipt :=
  {| Eth.transactionHash := "0x5c504ed432cb51138bcf09aa5e8a410dd4a1e204ef84bfed1be16dfba1b22060" |}.

Definition web3 : Eth.Web3 := client (Returned receipt).

Definition provider (chain : string) : Eth.Provider :=
  {| Eth.accounts := Returned ["0x52908400098527886e0f7030069857d2e4169ee7"];
     Eth.requestAccounts := Returned ["0x52908400098527886e0f7030069857d2e4169ee7"];
     Eth.chainId := Returned chain;
     Eth.switchEthereumChain := fun _ => Returned tt;
     Eth.addEthereumChain := fun _ => Returned tt |}.

Definition browser (chain : string) : Eth.Browser :=
  {| Eth.ethereum := Some (provider chain); Eth.newWeb3 := fun _ => web3 |}.

Definition noWallet : Eth.Browser :=
  {| Eth.ethereum := None; Eth.newWeb3 := fun _ => web3 |}.

(** The form as a user filled it in, with one ether in the account. *)
Definition props (w : option Eth.Web3) : SendTransaction.SendTransactionProps :=
  {| SendTransaction.web3 := w;
     SendTransaction.account := Some "0x52908400098527886e0f7030069857d2e4169ee7";
     SendTransaction.balance := Some "1";
     SendTransaction.networkSymbol := "ETH" |}.

Definition form (recipient amount : string)
  : World SendTransaction.TransactionState :=
  {| state :=
       {| SendTransaction.to := recipient;
          SendTransaction.amount := amount;
          SendTransaction.gasPrice := "20";
          SendTransaction.gasLimit := "21000";
          SendTransaction.isProcessing := false;
          SendTransaction.error := None;
          SendTransaction.success := None |};
     trace := [] |}.

Definition recipient : string := "0x8617e340b3d01fa5f11f306f4090fd50e238070d".

End Sample.

(** ** What the components render *)
Module Display.

(** A relative index of [String.prototype.slice]: counted from the end
    when negative, and kept within the string. *)
Definition clampIndex (len i : Z) : Z :=
  if i <? 0 then Z.max (len + i) 0 else Z.min i len.

(** [s.slice(start, finish)]; [finish = None] is a call without the
    second argument. *)
Definition slice (s : string) (start : Z) (finish : option Z) : string :=
  let len := Z.of_nat (String.length s) in
  let from := clampIndex len start in
  let upto := match finish with
              | Some e => clampIndex len e
              | None => len
              end in
  String.substring (Z.to_nat from) (Z.to_nat (Z.max (upto - from) 0)) s.

(** [formatAddress], the same in both components. *)
Definition formatAddress (address : string) : string :=
  slice address 0 (Some 6) ++ "..." ++ slice address (-4) None.

(** A value interpolated in a template literal where a string is
    expected: a missing one is written "undefined". *)
Definition interpolate (o : option string) : string :=
  match o with
  | Some s => s
  | None => "undefined"
  end.

(** The text of the balance paragraph of the connection manager. *)
Definition balanceText (ws : WalletConnect.WalletState) : string :=
  match truthy (WalletConnect.balance ws) with
  | Some balance =>
      Number.toFixed (Number.parseFloat balance) 4 ++ " "
        ++ interpolate (WalletConnect.getNetworkSymbol ws)
  | None => "Loading..."
  end.

End Display.

(** ** Notions the properties below are stated with *)
Module Digits.
(** A decimal digit. *)
Definition isDigit (d : Z) : Prop := 0 <= d < 10.
End Digits.

Module Settled.
Import WalletConnect.
(** The disconnected state: the initial one, up to the error shown. *)
Definition emptyWith (e : option string) : WalletState :=
  {| isConnected := false; account := None; balance := None; error := e;
     network := {| chainId := None; name := None; isTestnet := false |};
     showSendForm := false |}.

(** What holds of the hooks between two operations: a connected
    component has a balance and a client, a disconnected one shows
    nothing but, possibly, an error. *)
Definition settled (h : Hooks) : Prop :=
  if isConnected (walletState h)
  then balance (walletState h) <> None /\ web3 h <> None
  else walletState h = emptyWith (error (walletState h)).
End Settled.

Module Scenes.
(** A provider that is there but has authorized no account yet. *)
Definition quiet : Eth.Browser :=
  {| Eth.ethereum :=
       Some {| Eth.accounts := Returned [];
               Eth.requestAccounts :=
                 Returned ["0x52908400098527886e0f7030069857d2e4169ee7"];
               Eth.chainId := Returned "0x1";
               Eth.switchEthereumChain := fun _ => Returned tt;
               Eth.addEthereumChain := fun _ => Returned tt |};
     Eth.newWeb3 := fun _ => Sample.web3 |}.
End Scenes.

(** * Properties of strings *)
Module StringFacts.


Lemma contains_unfold (s sub : string) :
  contains s sub
  = String.prefix sub s
    || match s with String _ r => contains r sub | EmptyString => false end.
Proof. destruct s; reflexivity. Qed.


Lemma contains_later (pre s sub : string) :
  contains s sub = true -> contains (pre ++ s) sub = true.
Proof.
  intros H. induction pre as [|c pre IH]; [exact H|].
  rewrite contains_unfold. cbn [append]. rewrite IH. apply orb_true_r.
Qed.

Lemma contains_end (pre sub : string) : contains (pre ++ sub) sub = true.
Proof.
  apply contains_later. rewrite contains_unfold.
  replace (String.prefix sub sub) with true; [reflexivity|].
  symmetry. induction sub as [|c sub IH]; cbn; [reflexivity|].
  destruct (Ascii.ascii_dec c c) as [_|n]; [exact IH | now elim n].
Qed.

End StringFacts.

(** * Properties of the number primitives *)
Module NumberFacts.
Import Number.

Lemma digits2_bounds (p : positive) :
  2 ^ (Zpos (digits2_pos p) - 1) <= Zpos p < 2 ^ Zpos (digits2_pos p).
Proof.
  induction p as [p IH|p IH|]; cbn [digits2_pos].
  - rewrite Pos2Z.inj_succ. replace (Z.succ (Zpos (digits2_pos p)) - 1)
      with (Z.succ (Zpos (digits2_pos p) - 1)) by lia.
    rewrite !Z.pow_succ_r by lia. lia.
  - rewrite Pos2Z.inj_succ. replace (Z.succ (Zpos (digits2_pos p)) - 1)
      with (Z.succ (Zpos (digits2_pos p) - 1)) by lia.
    rewrite !Z.pow_succ_r by lia. lia.
  - cbn. lia.
Qed.

Lemma digits2_small (p : positive) :
  Zpos p < 2 ^ 53 -> Zpos (digits2_pos p) <= 53.
Proof.
  intros H. destruct (digits2_bounds p) as [Hlo _].
  destruct (Z_le_gt_dec (Zpos (digits2_pos p)) 53) as [|Hgt]; [assumption|].
  exfalso. assert (2 ^ 53 <= 2 ^ (Zpos (digits2_pos p) - 1))
    by (apply Z.pow_le_mono_r; lia). lia.
Qed.

Lemma digits2_big (p : positive) :
  2 ^ 53 <= Zpos p -> 54 <= Zpos (digits2_pos p).
Proof.
  intros H. destruct (digits2_bounds p) as [_ Hhi].
  destruct (Z_le_gt_dec 54 (Zpos (digits2_pos p))) as [|Hgt]; [assumption|].
  exfalso. assert (2 ^ Zpos (digits2_pos p) <= 2 ^ 53)
    by (apply Z.pow_le_mono_r; lia). lia.
Qed.

Lemma iter_xO_value (p k : positive) :
  Zpos (Pos.iter xO p k) = Zpos p * 2 ^ Zpos k.
Proof.
  induction k as [|k IH] using Pos.peano_ind.
  - cbn. lia.
  - rewrite Pos.iter_succ, Pos2Z.inj_succ, Z.pow_succ_r by lia.
    rewrite Pos2Z.inj_xO, IH. lia.
Qed.

Lemma iter_xO_digits (p k : positive) :
  digits2_pos (Pos.iter xO p k) = (digits2_pos p + k)%positive.
Proof.
  induction k as [|k IH] using Pos.peano_ind.
  - cbn. lia.
  - rewrite Pos.iter_succ. cbn [digits2_pos]. rewrite IH. lia.
Qed.

(** A mantissa of 53 bits with an exponent in range is kept as it is. *)
Lemma round_aux_exact (m : positive) (e : Z) :
  Zpos (digits2_pos m) = 53 -> -1074 <= e <= 971 ->
  binary_round_aux prec emax false (Zpos m) e loc_Exact = S754_finite false m e.
Proof.
  intros Hd He. unfold binary_round_aux, shr_fexp, fexp, emin, prec, emax.
  cbn [Zdigits2 shr_record_of_loc]. rewrite Hd.
  replace (Z.max (53 + e - 53) (3 - 1024 - 53) - e) with 0 by lia.
  cbn [shr shr_m loc_of_shr_record round_nearest_even Zdigits2].
  rewrite Hd.
  replace (Z.max (53 + e - 53) (3 - 1024 - 53) - e) with 0 by lia.
  cbn [shr shr_m shr_record_of_loc].
  replace (e <=? 1024 - 53) with true by (symmetry; apply Z.leb_le; lia).
  reflexivity.
Qed.

Lemma aligned_spec (p : positive) :
  Zpos p < 2 ^ 53 ->
  snd (aligned p) = Zpos (digits2_pos p) - 53
  /\ Zpos (fst (aligned p)) = Zpos p * 2 ^ (53 - Zpos (digits2_pos p))
  /\ Zpos (digits2_pos (fst (aligned p))) = 53.
Proof.
  intros H. apply digits2_small in H. unfold aligned, shl_align.
  destruct (Zpos (digits2_pos p) - 53 - 0) as [|k|k] eqn:E; try lia.
  - cbn [fst snd]. replace (53 - Zpos (digits2_pos p)) with 0 by lia.
    repeat split; lia.
  - cbn [fst snd]. rewrite iter_xO_value, iter_xO_digits.
    replace (53 - Zpos (digits2_pos p)) with (Zpos k) by lia.
    repeat split; lia.
Qed.

Lemma ofZ_small (p : positive) :
  Zpos p < 2 ^ 53 ->
  ofZ (Zpos p) = S754_finite false (fst (aligned p)) (snd (aligned p)).
Proof.
  intros H. destruct (aligned_spec p H) as (He & _ & Hd).
  unfold ofZ, binary_normalize, binary_round.
  replace (fexp prec emax (Zpos (digits2_pos p) + 0))
    with (Zpos (digits2_pos p) - 53)
    by (unfold fexp, emin, prec, emax; pose proof (digits2_small p H); lia).
  fold (aligned p). destruct (aligned p) as [mz ez] eqn:E. cbn [fst snd] in *.
  apply round_aux_exact; [assumption|].
  pose proof (digits2_small p H). lia.
Qed.


Lemma shr_exponent (mrs : shr_record) (e n : Z) : e <= snd (shr mrs e n).
Proof. destruct n; cbn; lia. Qed.

(** An integer from 2^53 on gets a positive exponent (or overflows),
    so it equals no value with an exponent of at most 0. *)
Lemma ofZ_big (p m : positive) (e : Z) :
  2 ^ 53 <= Zpos p -> e <= 0 ->
  eqb (ofZ (Zpos p)) (S754_finite false m e) = false.
Proof.
  intros H He. apply digits2_big in H.
  unfold ofZ, binary_normalize, binary_round.
  replace (fexp prec emax (Zpos (digits2_pos p) + 0))
    with (Zpos (digits2_pos p) - 53)
    by (unfold fexp, emin, prec, emax; lia).
  unfold shl_align.
  destruct (Zpos (digits2_pos p) - 53 - 0) as [|k|k] eqn:E; try lia.
  unfold binary_round_aux.
  destruct (shr_fexp prec emax (Zpos p) 0 loc_Exact) as [mrs' e'] eqn:E1.
  assert (H1 : 1 <= e').
  { replace e' with (snd (shr_fexp prec emax (Zpos p) 0 loc_Exact))
      by (rewrite E1; reflexivity).
    unfold shr_fexp. cbn [Zdigits2].
    replace (fexp prec emax (Zpos (digits2_pos p) + 0) - 0) with (Zpos k)
      by (unfold fexp, emin, prec, emax; lia).
    cbn [shr snd]. lia. }
  destruct (shr_fexp prec emax
              (round_nearest_even (shr_m mrs') (loc_of_shr_record mrs'))
              e' loc_Exact) as [mrs'' e''] eqn:E2.
  assert (H2 : e' <= e'').
  { replace e'' with (snd (shr_fexp prec emax
              (round_nearest_even (shr_m mrs') (loc_of_shr_record mrs'))
              e' loc_Exact)) by (rewrite E2; reflexivity).
    apply shr_exponent. }
  destruct (shr_m mrs'') as [|m''|m'']; try reflexivity.
  destruct (e'' <=? emax - prec); [|reflexivity].
  unfold eqb, SFeqb, SFcompare.
  replace (e'' ?= e) with Gt by (symmetry; apply Z.compare_gt_iff; lia).
  reflexivity.
Qed.

Lemma eqb_ofZ (c : Z) (a : positive) :
  0 <= c -> Zpos a < 2 ^ 53 ->
  eqb (ofZ c) (ofZ (Zpos a)) = (c =? Zpos a).
Proof.
  intros Hc Ha. rewrite (ofZ_small a Ha).
  destruct c as [|q|q]; try lia.
  - reflexivity.
  - destruct (Z_lt_le_dec (Zpos q) (2 ^ 53)) as [Hq|Hq].
    + rewrite (ofZ_small q Hq).
      destruct (aligned_spec q Hq) as (Heq & Hmq & _).
      destruct (aligned_spec a Ha) as (Hea & Hma & _).
      destruct (aligned q) as [mq eq]. destruct (aligned a) as [ma ea].
      cbn [fst snd] in *. unfold eqb, SFeqb, SFcompare.
      destruct (Z.eqb_spec (Zpos q) (Zpos a)) as [Heq'|Hne].
      * injection Heq' as ->. replace ea with eq by lia.
        rewrite Z.compare_refl.
        replace ma with mq by lia.
        now rewrite Pos.compare_cont_refl.
      * destruct (eq ?= ea) eqn:Ecmp; try reflexivity.
        apply Z.compare_eq in Ecmp.
        destruct (Pos.compare_cont Eq mq ma) eqn:Em; try reflexivity.
        apply Pos.compare_eq in Em. subst ma.
        exfalso. apply Hne.
        assert (Hd : Zpos (digits2_pos q) = Zpos (digits2_pos a)) by lia.
        rewrite Hd in Hmq. rewrite Hmq in Hma.
        apply Z.mul_cancel_r in Hma; [congruence|].
        apply Z.pow_nonzero; [lia|]. pose proof (digits2_small a Ha). lia.
    + destruct (aligned_spec a Ha) as (Hea & _ & _).
      pose proof (digits2_small a Ha).
      rewrite ofZ_big by lia.
      symmetry. apply Z.eqb_neq. lia.
Qed.


(** *** Decimal digits *)

Lemma digitsFuel_enough (f1 f2 : nat) (n : Z) :
  0 <= n < 2 ^ Z.of_nat (S f1) -> n < 2 ^ Z.of_nat (S f2) ->
  digitsFuel (S f1) n = digitsFuel (S f2) n.
Proof.
  revert f2 n. induction f1 as [|f1 IH]; intros f2 n H1 H2.
  - cbn in H1. cbn [digitsFuel].
    replace (n <? 10) with true by (symmetry; apply Z.ltb_lt; lia).
    reflexivity.
  - cbn [digitsFuel]. destruct (Z.ltb_spec n 10) as [|Hn]; [reflexivity|].
    destruct f2 as [|f2]; [cbn in H2; lia|].
    f_equal. rewrite Nat2Z.inj_succ, Z.pow_succ_r in H1, H2 by lia.
    apply IH;
      [split; [apply Z.div_pos; lia | apply Z.div_lt_upper_bound; lia]
      | apply Z.div_lt_upper_bound; lia].
Qed.

Lemma log2_fuel (n : Z) : 0 <= n -> n < 2 ^ Z.of_nat (S (Z.to_nat (Z.log2 n))).
Proof.
  intros H. rewrite Nat2Z.inj_succ, Z2Nat.id by apply Z.log2_nonneg.
  destruct (Z.eq_dec n 0) as [->|Hn]; [cbn; lia|].
  apply Z.log2_spec. lia.
Qed.

Lemma decimalDigits_small (n : Z) : 0 <= n < 10 -> decimalDigits n = [n].
Proof.
  intros H. unfold decimalDigits. cbn [digitsFuel].
  replace (n <? 10) with true by (symmetry; apply Z.ltb_lt; lia).
  reflexivity.
Qed.

Lemma decimalDigits_step (n : Z) :
  10 <= n -> decimalDigits n = (decimalDigits (n / 10) ++ [n mod 10])%list.
Proof.
  intros H. unfold decimalDigits at 1. cbn [digitsFuel].
  replace (n <? 10) with false by (symmetry; apply Z.ltb_ge; lia).
  f_equal.
  assert (H0 : 0 <= n / 10) by (apply Z.div_pos; lia).
  destruct (Z.to_nat (Z.log2 n)) as [|f] eqn:E.
  - exfalso. pose proof (Z.log2_nonneg n). assert (Z.log2 n = 0) by lia.
    assert (3 <= Z.log2 n) by (apply Z.log2_le_pow2; lia). lia.
  - unfold decimalDigits. apply digitsFuel_enough.
    + split; [assumption|].
      apply Z.div_lt_upper_bound; [lia|].
      pose proof (log2_fuel n ltac:(lia)) as Hf. rewrite E in Hf.
      rewrite Nat2Z.inj_succ, Z.pow_succ_r in Hf by lia. lia.
    + apply log2_fuel. assumption.
Qed.

Lemma decimalDigits_nonempty (n : Z) : 0 <= n -> (1 <= List.length (decimalDigits n))%nat.
Proof.
  intros H. destruct (Z_lt_le_dec n 10).
  - rewrite decimalDigits_small by lia. cbn. lia.
  - rewrite decimalDigits_step, length_app by lia. cbn. lia.
Qed.

Lemma decimalDigits_zeros (s : Z) (j : nat) :
  1 <= s ->
  decimalDigits (s * 10 ^ Z.of_nat j) = (decimalDigits s ++ repeat 0 j)%list.
Proof.
  intros Hs. induction j as [|j IH].
  - cbn [repeat Z.of_nat]. rewrite Z.pow_0_r, Z.mul_1_r, app_nil_r. reflexivity.
  - rewrite Nat2Z.inj_succ, Z.pow_succ_r by lia.
    assert (Hp : 0 < 10 ^ Z.of_nat j) by (apply Z.pow_pos_nonneg; lia).
    rewrite decimalDigits_step by nia.
    replace (s * (10 * 10 ^ Z.of_nat j)) with (s * 10 ^ Z.of_nat j * 10) by lia.
    rewrite Z.div_mul, Z.mod_mul, IH by lia.
    rewrite <- app_assoc. f_equal.
    change (repeat 0 j ++ [0])%list with (repeat 0 j ++ repeat 0 1)%list.
    rewrite <- repeat_app. f_equal. lia.
Qed.

Lemma decimalDigits_length_le (m : nat) (n : Z) :
  0 <= n < 10 ^ Z.of_nat (S m) -> (List.length (decimalDigits n) <= S m)%nat.
Proof.
  revert n. induction m as [|m IH]; intros n H.
  - rewrite decimalDigits_small by (cbn in H; lia). cbn. lia.
  - destruct (Z_lt_le_dec n 10).
    + rewrite decimalDigits_small by lia. cbn. lia.
    + rewrite decimalDigits_step, length_app by lia. cbn [List.length].
      assert ((List.length (decimalDigits (n / 10)) <= S m)%nat); [|lia].
      apply IH. split; [apply Z.div_pos; lia|].
      apply Z.div_lt_upper_bound; [lia|].
      rewrite (Nat2Z.inj_succ (S m)), Z.pow_succ_r in H by lia. lia.
Qed.

Lemma stringOfDigits_app (a b : list Z) :
  stringOfDigits (a ++ b) = stringOfDigits a ++ stringOfDigits b.
Proof.
  induction a as [|d a IH]; cbn; [reflexivity|].
  unfold stringOfDigits in IH. now rewrite IH.
Qed.

Lemma stringOfDigits_zeros (j : nat) : stringOfDigits (repeat 0 j) = Chars.repeat0 j.
Proof.
  induction j as [|j IH]; [reflexivity|].
  cbn [repeat Chars.repeat0]. rewrite <- IH. reflexivity.
Qed.

Lemma strip_length (ds : list Z) :
  (List.length (stripTrailingZeros ds) <= List.length ds)%nat.
Proof.
  induction ds as [|d r IH]; cbn [stripTrailingZeros List.length]; [lia|].
  destruct (stripTrailingZeros r); [destruct (d =? 0)|]; cbn [List.length] in *; lia.
Qed.

(** The zeros taken off the end come back as padding. *)
Lemma strip_pad (ds : list Z) (n : nat) :
  (List.length ds <= n)%nat ->
  stringOfDigits (stripTrailingZeros ds)
    ++ Chars.repeat0 (n - List.length (stripTrailingZeros ds))
  = stringOfDigits ds ++ Chars.repeat0 (n - List.length ds).
Proof.
  revert n. induction ds as [|d r IH]; intros n H; [reflexivity|].
  cbn [List.length] in H. destruct n as [|n]; [lia|].
  specialize (IH n ltac:(lia)).
  cbn [stripTrailingZeros].
  destruct (stripTrailingZeros r) as [|x r'] eqn:E.
  - cbn [stringOfDigits fold_right List.length append] in IH.
    rewrite Nat.sub_0_r in IH.
    destruct (Z.eqb_spec d 0) as [->|Hd].
    + cbn. f_equal. exact IH.
    + cbn. f_equal. rewrite Nat.sub_0_r. exact IH.
  - cbn. f_equal. exact IH.
Qed.


(** *** Writing an integer below 2^53 *)

Lemma scaledFloor_int (N den j : Z) :
  0 < den -> 0 <= j -> scaledFloor (N * den) den j = N / 10 ^ j.
Proof.
  intros Hden Hj. unfold scaledFloor.
  replace (0 <=? j) with true by (symmetry; apply Z.leb_le; lia).
  rewrite (Z.mul_comm den). apply Z.div_mul_cancel_r; [|lia].
  apply Z.pow_nonzero; lia.
Qed.

(** With [k] digits an integer reads back exactly when the rest of its
    digits are zeros. *)
Lemma candidate_int (p : positive) (den D k : Z) :
  Zpos p < 2 ^ 53 -> 0 < den -> 0 <= D - k ->
  candidate (ofZ (Zpos p)) (Zpos p * den) den D k
  = if Zpos p mod 10 ^ (D - k) =? 0 then Some (Zpos p / 10 ^ (D - k)) else None.
Proof.
  intros Hp Hden Hj. unfold candidate. rewrite scaledFloor_int by assumption.
  set (j := D - k) in *. set (lo := Zpos p / 10 ^ j).
  assert (Hpow : 0 < 10 ^ j) by (apply Z.pow_pos_nonneg; lia).
  assert (Hlo : 0 <= lo) by (apply Z.div_pos; lia).
  unfold ofDecimal.
  replace (0 <=? j) with true by (symmetry; apply Z.leb_le; lia).
  fold (ofZ (lo * 10 ^ j)). fold (ofZ ((lo + 1) * 10 ^ j)).
  rewrite !eqb_ofZ by nia.
  pose proof (Z.div_mod (Zpos p) (10 ^ j) ltac:(lia)) as Hdm. fold lo in Hdm.
  pose proof (Z.mod_pos_bound (Zpos p) (10 ^ j) Hpow) as Hb.
  destruct (Z.eqb_spec (Zpos p mod 10 ^ j) 0) as [Hz|Hnz].
  - replace (lo * 10 ^ j =? Zpos p) with true by (symmetry; apply Z.eqb_eq; lia).
    replace ((lo + 1) * 10 ^ j =? Zpos p) with false
      by (symmetry; apply Z.eqb_neq; lia).
    reflexivity.
  - replace (lo * 10 ^ j =? Zpos p) with false by (symmetry; apply Z.eqb_neq; lia).
    replace ((lo + 1) * 10 ^ j =? Zpos p) with false
      by (symmetry; apply Z.eqb_neq; lia).
    reflexivity.
Qed.

Lemma shortest_int (p : positive) (den D : Z) (fuel : nat) (k : Z) :
  Zpos p < 2 ^ 53 -> 0 < den -> 1 <= k <= D -> D - k < Z.of_nat fuel ->
  exists j, 0 <= j <= D - k
            /\ Zpos p mod 10 ^ j = 0
            /\ shortest fuel (ofZ (Zpos p)) (Zpos p * den) den D k
               = (Zpos p / 10 ^ j, D - j).
Proof.
  intros Hp Hden. revert k. induction fuel as [|fuel IH]; intros k Hk Hfuel; [lia|].
  cbn [shortest]. rewrite candidate_int by (assumption || lia).
  destruct (Z.eqb_spec (Zpos p mod 10 ^ (D - k)) 0) as [Hz|Hnz].
  - exists (D - k). repeat split; try lia. f_equal. lia.
  - assert (D - k <> 0).
    { intros E. apply Hnz. rewrite E. apply Z.mod_1_r. }
    destruct (IH (k + 1) ltac:(lia) ltac:(lia)) as (j & Hj & Hm & Hs).
    exists j. repeat split; try lia. exact Hs.
Qed.

Lemma magnitude_aligned (p : positive) :
  Zpos p < 2 ^ 53 ->
  exists den, 0 < den
    /\ magnitude (fst (aligned p)) (snd (aligned p)) = (Zpos p * den, den).
Proof.
  intros Hp. destruct (aligned_spec p Hp) as (He & Hm & _).
  pose proof (digits2_small p Hp) as Hd. unfold magnitude. rewrite Hm, He.
  destruct (Z.leb_spec 0 (Zpos (digits2_pos p) - 53)) as [H0|H0].
  - exists 1. split; [lia|].
    replace (Zpos (digits2_pos p) - 53) with 0 by lia.
    replace (53 - Zpos (digits2_pos p)) with 0 by lia.
    rewrite Z.pow_0_r, Z.mul_1_r. reflexivity.
  - exists (2 ^ (53 - Zpos (digits2_pos p))).
    split; [apply Z.pow_pos_nonneg; lia|].
    replace (- (Zpos (digits2_pos p) - 53)) with (53 - Zpos (digits2_pos p)) by lia.
    reflexivity.
Qed.

(** An integer from 1 to 2^53 - 1 is written as its decimal numeral. *)
Lemma toString_ofZ (n : Z) :
  0 < n < 2 ^ 53 -> toString (ofZ n) = stringOfZ n.
Proof.
  intros [Hpos Hlt]. destruct n as [|p|p]; try lia.
  pose proof (decimalDigits_nonempty (Zpos p) ltac:(lia)) as Hne.
  assert (Hle : (List.length (decimalDigits (Zpos p)) <= 16)%nat).
  { apply decimalDigits_length_le. split; [lia|].
    apply Z.lt_trans with (1 := Hlt). reflexivity. }
  rewrite (ofZ_small p Hlt). unfold toString, shortestDigits.
  destruct (magnitude_aligned p Hlt) as (den & Hden & ->).
  rewrite <- (ofZ_small p Hlt).
  assert (HD : decimalExponent (Zpos p * den) den
               = Z.of_nat (List.length (decimalDigits (Zpos p)))).
  { unfold decimalExponent.
    replace (den <=? Zpos p * den) with true by (symmetry; apply Z.leb_le; nia).
    rewrite Z.div_mul by lia. reflexivity. }
  rewrite HD. set (D := List.length (decimalDigits (Zpos p))) in *.
  destruct (shortest_int p den (Z.of_nat D) 17 1 Hlt Hden ltac:(lia) ltac:(lia))
    as (j & Hj & Hmod & ->).
  set (s := Zpos p / 10 ^ j).
  assert (Hpow : 0 < 10 ^ j) by (apply Z.pow_pos_nonneg; lia).
  assert (Hs : Zpos p = s * 10 ^ j).
  { pose proof (Z.div_mod (Zpos p) (10 ^ j) ltac:(lia)). fold s in H. lia. }
  assert (Hs1 : 1 <= s) by nia.
  assert (Hds : decimalDigits (Zpos p)
                = (decimalDigits s ++ repeat 0 (Z.to_nat j))%list).
  { rewrite Hs at 1. rewrite <- (Z2Nat.id j) at 1 by lia.
    apply decimalDigits_zeros. assumption. }
  assert (HDlen : D = (List.length (decimalDigits s) + Z.to_nat j)%nat).
  { unfold D. rewrite Hds, length_app, repeat_length. reflexivity. }
  pose proof (strip_length (decimalDigits s)) as Hstrip.
  unfold layoutDigits.
  replace (Z.of_nat D - (Z.of_nat D - j) + Z.of_nat (List.length (decimalDigits s)))
    with (Z.of_nat D) by lia.
  replace ((Z.of_nat (List.length (stripTrailingZeros (decimalDigits s)))
            <=? Z.of_nat D) && (Z.of_nat D <=? 21)) with true
    by (symmetry; apply andb_true_iff; split; apply Z.leb_le; lia).
  replace (Z.to_nat (Z.of_nat D
             - Z.of_nat (List.length (stripTrailingZeros (decimalDigits s)))))
    with (D - List.length (stripTrailingZeros (decimalDigits s)))%nat by lia.
  rewrite strip_pad by lia.
  replace (D - List.length (decimalDigits s))%nat with (Z.to_nat j) by lia.
  rewrite <- stringOfDigits_zeros, <- stringOfDigits_app, <- Hds.
  reflexivity.
Qed.

End NumberFacts.

(** * Properties of the connection manager *)
Module WalletConnectFacts.
Import WalletConnect.

(** Runs a program symbolically: the combinators are unfolded and every
    answer of the environment is split into its cases. *)
Ltac unfold_programs :=
  unfold perform, onAccountsChanged, onChainChanged, checkIfWalletIsConnected,
    connectWallet, disconnectWallet, updateBalance, switchToMainnet,
    toggleSendForm, getCurrentNetwork, setWalletState, setWeb3,
    tryCatch, bind, ret, lift, request, setState, getState in *.

Ltac split_answers :=
  repeat match goal with
    | |- context [match ?x with _ => _ end] =>
        first [ is_var x; destruct x | destruct x eqn:? ]; cbn in *
    end.

(** Disconnecting puts both cells back to their initial values and
    sends nothing. *)
Lemma disconnectWallet_resets (w : World Hooks) :
  disconnectWallet w = (Returned tt, {| state := initialHooks; trace := trace w |}).
Proof. reflexivity. Qed.

(** A connection attempt depends on the world it starts from only
    through the requests already recorded and, when it fails, through
    the wallet state it leaves in place. *)
Lemma connectWallet_from_initial (env : Eth.Browser) (t : list (Eth.Request * Hooks)) :
  connectWallet env {| state := initialHooks; trace := t |}
  = (fst (connectWallet env initialWorld),
     {| state := state (snd (connectWallet env initialWorld));
        trace := t ++ trace (snd (connectWallet env initialWorld)) |}).
Proof.
  unfold initialWorld. unfold_programs. cbn.
  destruct (Eth.ethereum env) as [provider|]; cbn.
  - destruct (Eth.requestAccounts provider) as [accounts|e]; cbn.
    + destruct (Eth.chainId provider) as [c|e]; cbn;
        destruct (Eth.getBalance (Eth.newWeb3 env provider) (hd_error accounts))
          as [b|e']; cbn;
        try destruct (Eth.utils_fromWei (Eth.newWeb3 env provider)
                        (BigInt.toString b) Web3Utils.ether) as [s|e'']; cbn;
        rewrite <- ?app_assoc; reflexivity.
    + reflexivity.
  - rewrite app_nil_r. reflexivity.
Qed.

(** A connection attempt lets no exception escape. *)
Lemma connectWallet_returns (env : Eth.Browser) (w : World Hooks) :
  fst (connectWallet env w) = Returned tt.
Proof.
  unfold_programs.
  destruct (Eth.ethereum env) as [provider|]; cbn; [|reflexivity].
  destruct (Eth.requestAccounts provider); cbn; [|reflexivity].
  destruct (Eth.chainId provider); cbn;
    destruct (Eth.getBalance _ _); cbn; try reflexivity;
    destruct (Eth.utils_fromWei _ _ _); reflexivity.
Qed.

(** Without a provider a connection attempt only writes the error. *)
Lemma connectWallet_without_provider (env : Eth.Browser) (w : World Hooks) :
  Eth.ethereum env = None ->
  connectWallet env w
  = (Returned tt,
     {| state := {| walletState := withError "Please install MetaMask!"
                                     (walletState (state w));
                    web3 := web3 (state w) |};
        trace := trace w |}).
Proof. intros H. unfold_programs. rewrite H. reflexivity. Qed.

(** While no provider has ever been there, the component stays
    disconnected, holds no client and has sent nothing. *)
Lemma never_connected_without_provider (w : World Hooks) :
  reachable noProvider w ->
  isConnected (walletState (state w)) = false
  /\ web3 (state w) = None
  /\ trace w = [].
Proof.
  induction 1 as [|w env a Hw (Hc & Hw3 & Ht) Henv Hoff].
  - repeat split.
  - unfold noProvider in Henv.
    destruct a; cbn in Hoff; rewrite ?Hc, ?Henv in Hoff; try discriminate;
      unfold_programs; rewrite ?Henv, ?Hw3; cbn; auto.
Qed.

Lemma connectWallet_holdsClient (env : Eth.Browser) (w : World Hooks) :
  holdsClient (state w) -> holdsClient (state (snd (connectWallet env w))).
Proof.
  unfold holdsClient. destruct w as [[ws w3] t]. unfold_programs. cbn.
  destruct (Eth.ethereum env) as [provider|]; cbn; [|auto].
  destruct (Eth.requestAccounts provider); cbn; [|auto].
  destruct (Eth.chainId provider); cbn;
    destruct (Eth.getBalance _ _); cbn; try (intros _; discriminate);
    destruct (Eth.utils_fromWei _ _ _); cbn; intros _; discriminate.
Qed.

Lemma updateBalance_holdsClient (env : Eth.Browser) (w : World Hooks) :
  holdsClient (state w) -> holdsClient (state (snd (updateBalance env w))).
Proof.
  unfold holdsClient. destruct w as [[ws w3] t]. unfold_programs. cbn.
  destruct w3 as [c|]; cbn; [|auto].
  destruct (truthy (account ws)); cbn; [|auto].
  destruct (Eth.getBalance c _); cbn; [|auto].
  destruct (Eth.utils_fromWei c _ _); cbn; [|auto].
  destruct (Eth.ethereum env) as [provider|]; cbn; [|intros _; discriminate].
  destruct (Eth.chainId provider); cbn; intros _; discriminate.
Qed.

Lemma option_Z_eq_dec (a b : option Z) : {a = b} + {a <> b}.
Proof. decide equality. apply Z.eq_dec. Qed.

(** The comparison [err.code === 4902] when the code is another one. *)
Lemma other_code {A} (code : option Z) (x y : A) :
  code <> Some 4902 ->
  match code with Some 4902 => x | _ => y end = y.
Proof.
  intros H. destruct code as [[|q|q]|]; try reflexivity.
  destruct (Pos.eq_dec q 4902) as [->|Hq]; [congruence|].
  repeat (destruct q as [q|q|]; try reflexivity); congruence.
Qed.

(** Switching chains is a matter between the component and the
    provider: the hooks are not written. *)
Lemma switchToMainnet_state (env : Eth.Browser) (w : World Hooks) :
  state (snd (switchToMainnet env w)) = state w.
Proof.
  unfold switchToMainnet, tryCatch, bind, lift, request, ret.
  destruct (Eth.ethereum env) as [provider|]; [|reflexivity].
  destruct (Eth.switchEthereumChain provider "0x1") as [|e]; [reflexivity|].
  destruct (codeOf e) as [code|t]; [|reflexivity].
  destruct (option_Z_eq_dec code (Some 4902)) as [->|Hne].
  - destruct (Eth.addEthereumChain provider "0x1"); reflexivity.
  - rewrite (other_code code _ _ Hne). reflexivity.
Qed.

(** Whenever the component shows itself connected it holds a client:
    the transfer form, which is rendered only while connected, never
    gets a null handle. *)
Lemma connected_has_client (w : World Hooks) :
  reachable (fun _ => True) w -> holdsClient (state w).
Proof.
  induction 1 as [|w env a Hw IH _ Hoff]; [discriminate|].
  destruct a; cbn [perform].
  - unfold checkIfWalletIsConnected, tryCatch, bind, request, ret,
      setWalletState, setState.
    destruct (Eth.ethereum env) as [provider|]; [|exact IH].
    destruct (Eth.accounts provider) as [accounts|e]; [|exact IH].
    destruct (0 <? Z.of_nat (List.length accounts)); [|exact IH].
    match goal with
    | |- context [connectWallet env ?w1] =>
        pose proof (connectWallet_holdsClient env w1 IH) as H;
        pose proof (connectWallet_returns env w1) as R;
        destruct (connectWallet env w1) as [o w']
    end.
    cbn [fst snd] in *. subst o. exact H.
  - now apply connectWallet_holdsClient.
  - now apply updateBalance_holdsClient.
  - destruct w as [[ws w3] t]. exact IH.
  - discriminate.
  - rewrite switchToMainnet_state. exact IH.
  - now apply updateBalance_holdsClient.
  - unfold onAccountsChanged.
    destruct (Z.of_nat (List.length accounts) =? 0); [discriminate|].
    now apply connectWallet_holdsClient.
  - unfold onChainChanged, bind, getState, ret.
    destruct (isConnected (walletState (state w))); [|exact IH].
    now apply connectWallet_holdsClient.
Qed.

(** *** The fallback descriptor *)

Lemma substring_all (s : string) : String.substring 0 (String.length s) s = s.
Proof. induction s as [|c s IH]; cbn; [reflexivity | now rewrite IH]. Qed.

Lemma dropPrefix2_cons (c c' : ascii) (r : string) :
  Chars.dropPrefix2 (String c (String c' r)) = r.
Proof.
  unfold Chars.dropPrefix2. cbn. rewrite Nat.sub_0_r. apply substring_all.
Qed.

Lemma prefix_0x (s : string) :
  String.prefix "0x" s = true -> exists r, s = String "0" (String "x" r).
Proof.
  intros H. apply String.prefix_correct in H.
  destruct s as [|c [|c' r]]; cbn in H; try discriminate.
  injection H as -> -> _. now exists r.
Qed.

Lemma radixDigit_nonneg (R : Z) (c : ascii) (v : Z) :
  Chars.radixDigit R c = Some v -> 0 <= v.
Proof.
  unfold Chars.radixDigit. cbv zeta.
  set (n := Chars.code c).
  destruct ((48 <=? n) && (n <=? 57)) eqn:E1;
    [|destruct ((97 <=? n) && (n <=? 122)) eqn:E2;
      [|destruct ((65 <=? n) && (n <=? 90)) eqn:E3]];
    match goal with
    | |- (if ?b then _ else _) = _ -> _ => destruct b; [|discriminate]
    end; intros [= <-];
    rewrite ?andb_true_iff, ?Z.leb_le in *; lia.
Qed.

Lemma takeDigits_nonneg (R : Z) (s : string) :
  Forall (fun d => 0 <= d) (fst (Chars.takeDigits (Chars.radixDigit R) s)).
Proof.
  induction s as [|c s IH]; cbn; [constructor|].
  destruct (Chars.radixDigit R c) as [v|] eqn:E; [|constructor].
  destruct (Chars.takeDigits (Chars.radixDigit R) s) as [ds rest].
  constructor; [now apply radixDigit_nonneg in E | exact IH].
Qed.

Lemma digitsValue_nonneg (R : Z) (ds : list Z) :
  0 <= R -> Forall (fun d => 0 <= d) ds -> 0 <= Chars.digitsValue R ds.
Proof.
  intros HR H. unfold Chars.digitsValue.
  assert (G : forall acc, 0 <= acc ->
            0 <= fold_left (fun a d => a * R + d) ds acc).
  { induction H as [|d ds Hd _ IH]; intros acc Hacc; cbn; [assumption|].
    apply IH. nia. }
  apply G. lia.
Qed.

(** [parseInt(chainId, 16)] of a hexadecimal chain id is the number
    nearest to the id. *)
Lemma parseInt_hexQuantity (chainId : string) (n : Z) :
  hexQuantity chainId = Some n ->
  0 <= n
  /\ Number.parseInt chainId 16
     = if n =? 0 then S754_zero false else Number.ofZ n.
Proof.
  unfold hexQuantity.
  destruct (String.prefix "0x" chainId) eqn:Hp; [|discriminate].
  destruct (prefix_0x chainId Hp) as (r & ->).
  rewrite dropPrefix2_cons. unfold Number.parseInt.
  change (Chars.trimStart (String "0" (String "x" r)))
    with (String "0" (String "x" r)).
  change (Chars.scanSign (String "0" (String "x" r)))
    with (false, String "0" (String "x" r)).
  cbv beta iota zeta.
  change (negb (16 =? 0) && ((16 <? 2) || (36 <? 16))) with false.
  change ((16 =? 0) || (16 =? 16)) with true.
  rewrite Hp. cbn [andb orb]. cbv beta iota zeta. rewrite dropPrefix2_cons.
  pose proof (takeDigits_nonneg 16 r) as Hnn.
  destruct (Chars.takeDigits (Chars.radixDigit 16) r) as [[|d ds] [|c rest]];
    try discriminate.
  intros [= <-]. cbn [fst] in *. split.
  - apply digitsValue_nonneg; [lia | assumption].
  - reflexivity.
Qed.

Lemma hexQuantity_not_inherited (chainId : string) (n : Z) :
  hexQuantity chainId = Some n ->
  existsb (String.eqb chainId) inheritedKeys = false.
Proof.
  unfold hexQuantity.
  destruct (String.prefix "0x" chainId) eqn:Hp; [|discriminate].
  destruct (prefix_0x chainId Hp) as (r & ->). reflexivity.
Qed.

Lemma getNetworkInfo_fallback (chainId : string) :
  lookup chainId = None ->
  getNetworkInfo chainId
  = Descriptor
      {| Info.name := "Chain ID: " ++ Number.toString (Number.parseInt chainId 16);
         Info.isTestnet := false;
         Info.symbol := "ETH" |}.
Proof. intros H. unfold getNetworkInfo. now rewrite H. Qed.

(** A key that names a member of [Object.prototype] finds that member,
    not a descriptor. *)
Example getNetworkInfo_constructor :
  getNetworkInfo "constructor" = Inherited "constructor".
Proof. reflexivity. Qed.

(** C3, as the code has it: for a chain id that is not a key of the
    static table, and that names no inherited member either,
    [getNetworkInfo] returns the descriptor named "Chain ID: " followed
    by [parseInt(chainId, 16)] as a number is written, with isTestnet
    false and symbol "ETH"; when the chain id is 0x and hexadecimal
    digits denoting an id below 2^53, what follows "Chain ID: " is
    exactly the decimal numeral of that id. *)
Theorem unknown_chain_descriptor (chainId : string) :
  ownProperty NETWORKS chainId = None ->
  (existsb (String.eqb chainId) inheritedKeys = false ->
   getNetworkInfo chainId
   = Descriptor
       {| Info.name := "Chain ID: " ++ Number.toString (Number.parseInt chainId 16);
          Info.isTestnet := false;
          Info.symbol := "ETH" |})
  /\ (forall n, hexQuantity chainId = Some n -> n < 2 ^ 53 ->
      getNetworkInfo chainId
      = Descriptor
          {| Info.name := "Chain ID: " ++ BigInt.toString n;
             Info.isTestnet := false;
             Info.symbol := "ETH" |}
      /\ contains ("Chain ID: " ++ BigInt.toString n) (BigInt.toString n) = true).
Proof.
  intros Hown.
  assert (Hmiss : existsb (String.eqb chainId) inheritedKeys = false ->
                  lookup chainId = None).
  { intros H. unfold lookup. now rewrite Hown, H. }
  split.
  - intros H. apply getNetworkInfo_fallback, Hmiss, H.
  - intros n Hn Hlt. split; [|apply StringFacts.contains_end].
    rewrite (getNetworkInfo_fallback chainId
               (Hmiss (hexQuantity_not_inherited chainId n Hn))).
    destruct (parseInt_hexQuantity chainId n Hn) as (H0 & ->).
    destruct (Z.eqb_spec n 0) as [->|Hnz]; [reflexivity|].
    rewrite NumberFacts.toString_ofZ by lia. reflexivity.
Qed.

Lemma unknown_chain_descriptor_witness :
  getNetworkInfo "0x38"
  = Descriptor
      {| Info.name := "Chain ID: 56"; Info.isTestnet := false;
         Info.symbol := "ETH" |}.
Proof.
  destruct (unknown_chain_descriptor "0x38") as (_ & H).
  - reflexivity.
  - destruct (H 56) as (H56 & _).
    + reflexivity.
    + reflexivity.
    + exact H56.
Defined.

(** C3 as stated fails beyond the precision of a number: the chain id
    0x20000000000001 denotes 9007199254740993 and is in no table, and
    the name holds 9007199254740992, the nearest number, instead. *)
Lemma unknown_chain_descriptor_rounds :
  ownProperty NETWORKS "0x20000000000001" = None
  /\ decodedChainId "0x20000000000001" = Some "9007199254740993"
  /\ getNetworkInfo "0x20000000000001"
     = Descriptor
         {| Info.name := "Chain ID: 9007199254740992"; Info.isTestnet := false;
            Info.symbol := "ETH" |}
  /\ contains "Chain ID: 9007199254740992" "9007199254740993" = false.
Proof. vm_compute. repeat split. Qed.

(** C5: disconnect() resets the connection state to exactly its
    initial, mount-time value and sends nothing to the provider; so from
    every state, disconnect() followed by connect() ends in the same
    state, with the same outcome and the same requests, as a fresh
    connect() from the initial state. *)
Theorem disconnect_then_connect (env : Eth.Browser) (w : World Hooks) :
  let reset := snd (disconnectWallet w) in
  let again := connectWallet env reset in
  let fresh := connectWallet env initialWorld in
  state reset = initialHooks
  /\ trace reset = trace w
  /\ fst again = fst fresh
  /\ state (snd again) = state (snd fresh)
  /\ trace (snd again) = (trace w ++ trace (snd fresh))%list.
Proof.
  cbn zeta. rewrite disconnectWallet_resets. cbn [snd state trace].
  rewrite connectWallet_from_initial. cbn [fst snd state trace].
  repeat split.
Qed.

(** C6: connect() called while no provider is injected returns
    normally, from whatever state; it sets the error to a non-empty
    string and leaves every other field of the connection state, the
    connected flag among them, as well as the client handle and the
    requests sent, as they were.  So connected is false after it
    wherever it was false before, which it is whenever connect() can be
    called: the connect button is only there while disconnected, and no
    state reached without a provider is connected. *)
Theorem connect_without_provider (env : Eth.Browser) (w : World Hooks) :
  Eth.ethereum env = None ->
  let r := connectWallet env w in
  let before := walletState (state w) in
  let after := walletState (state (snd r)) in
  fst r = Returned tt
  /\ (exists msg, error after = Some msg /\ msg <> "")
  /\ isConnected after = isConnected before
  /\ account after = account before
  /\ balance after = balance before
  /\ network after = network before
  /\ showSendForm after = showSendForm before
  /\ web3 (state (snd r)) = web3 (state w)
  /\ trace (snd r) = trace w
  /\ (offered env (state w) ClickConnect = true -> isConnected after = false)
  /\ (reachable noProvider w -> isConnected after = false).
Proof.
  intros Henv. cbn zeta.
  rewrite (connectWallet_without_provider env w Henv). cbn.
  repeat split.
  - exists "Please install MetaMask!". split; [reflexivity | discriminate].
  - now destruct (isConnected (walletState (state w))).
  - intros Hw. now destruct (never_connected_without_provider w Hw).
Qed.

Lemma connect_without_provider_witness :
  let before :=
    {| isConnected := false;
       account := Some "0x52908400098527886e0f7030069857d2e4169ee7";
       balance := Some "0.25";
       error := Some "Error connecting to wallet";
       network := {| chainId := Some "0x89"; name := Some "Polygon Mainnet";
                     isTestnet := false |};
       showSendForm := true |} in
  let w := {| state := {| walletState := before; web3 := Some Sample.web3 |};
              trace := [(Eth.eth_chainId, initialHooks)] |} in
  let r := connectWallet Sample.noWallet w in
  let after := walletState (state (snd r)) in
  fst r = Returned tt
  /\ error after = Some "Please install MetaMask!"
  /\ isConnected after = false
  /\ account after = Some "0x52908400098527886e0f7030069857d2e4169ee7"
  /\ balance after = Some "0.25"
  /\ network after = network before
  /\ showSendForm after = true
  /\ web3 (state (snd r)) = Some Sample.web3
  /\ trace (snd r) = [(Eth.eth_chainId, initialHooks)].
Proof.
  cbv zeta.
  match goal with
  | |- context [connectWallet Sample.noWallet ?w] =>
      destruct (connect_without_provider Sample.noWallet w eq_refl)
        as (Hr & _ & Hc & Ha & Hb & Hn & Hs & Hw & Ht & _)
  end.
  repeat split; assumption || reflexivity.
Defined.

(** C9: an accountsChanged event with an empty list of accounts, in
    whatever state it arrives (so also while connected), takes the
    component to the empty, disconnected state: connected is false and
    account, balance, network and error are reset. *)
Theorem accountsChanged_empty_disconnects (env : Eth.Browser) (w : World Hooks) :
  let r := onAccountsChanged env [] w in
  fst r = Returned tt
  /\ walletState (state (snd r)) = initialWalletState
  /\ isConnected (walletState (state (snd r))) = false
  /\ account (walletState (state (snd r))) = None
  /\ balance (walletState (state (snd r))) = None
  /\ error (walletState (state (snd r))) = None
  /\ network (walletState (state (snd r)))
      = {| chainId := None; name := None; isTestnet := false |}
  /\ web3 (state (snd r)) = None
  /\ trace (snd r) = trace w.
Proof. cbn. repeat split. Qed.

End WalletConnectFacts.

(** * Properties of the transfer form *)
Module SendTransactionFacts.
Import SendTransaction StringFacts.


Ltac unfold_send :=
  unfold sendTransaction, submit, tryCatch, bind, ret, lift, request,
    setState, getState in *.

Lemma no_new_entry {A} (t : list A) (x : A) : t <> (t ++ [x])%list.
Proof.
  intros H. apply (f_equal (@List.length A)) in H.
  rewrite length_app in H. cbn in H. lia.
Qed.

(** A run of [sendTransaction] that sends a transaction: the request
    goes out in the submitting state, and the run ends according to the
    client's answer. *)
Lemma sendTransaction_submits (p : SendTransactionProps)
    (w : World TransactionState) (tx : Eth.Transaction) (st : TransactionState) :
  trace (snd (sendTransaction p w))
    = (trace w ++ [(Eth.eth_sendTransaction tx, st)])%list ->
  exists w3,
    web3 p = Some w3
    /\ st = submitting (state w)
    /\ sendTransaction p w
       = (Returned tt,
          {| state := match Eth.sendTransaction w3 tx with
                      | Returned receipt =>
                          succeeded (Eth.transactionHash receipt) st
                      | Threw e => failed (errorMessage e) st
                      end;
             trace := (trace w ++ [(Eth.eth_sendTransaction tx, st)])%list |}).
Proof.
  unfold_send. cbn.
  destruct (web3 p) as [w3|] eqn:Hw3; cbn;
    [|intros H; now apply no_new_entry in H].
  destruct (truthy (account p)) as [acct|]; cbn;
    [|intros H; now apply no_new_entry in H].
  destruct (isValidAddress p (to (state w))); cbn;
    [|intros H; now apply no_new_entry in H].
  destruct (isValidAmount (amount (state w))); cbn;
    [|intros H; now apply no_new_entry in H].
  destruct (Number.gtb _ _); cbn;
    [intros H; now apply no_new_entry in H|].
  destruct (Eth.utils_toWei w3 (amount (state w)) Web3Utils.ether) as [a|e]; cbn;
    [|intros H; now apply no_new_entry in H].
  destruct (Eth.utils_toWei w3 (gasPrice (state w)) Web3Utils.gwei) as [g|e]; cbn;
    [|intros H; now apply no_new_entry in H].
  match goal with
  | |- context [Eth.sendTransaction w3 ?t] => set (sent := t)
  end.
  destruct (Eth.sendTransaction w3 sent) as [receipt|e] eqn:Hsent; cbn;
    intros H; apply app_inv_head in H; injection H as Htx Hst;
    exists w3; subst tx st; rewrite Hsent; repeat split.
Qed.

Lemma sample_conforms (answer : Outcome Eth.Receipt) :
  Eth.conforms (Sample.client answer).
Proof. split; intros v u r H; cbn; rewrite H; reflexivity. Qed.

(** C10: while the client handle is null, [isValidAddress] is false
    for every string, and [sendTransaction] stops at its first check:
    it records an error and sends nothing. *)
Theorem send_without_client (p : SendTransactionProps)
    (w : World TransactionState) :
  web3 p = None ->
  (forall address, isValidAddress p address = false)
  /\ sendTransaction p w
     = (Returned tt,
        {| state := withError "Wallet not connected" (state w);
           trace := trace w |}).
Proof.
  intros H. split.
  - intros address. unfold isValidAddress. now rewrite H.
  - unfold_send. now rewrite H.
Qed.

Lemma send_without_client_witness :
  (forall address, isValidAddress (Sample.props None) address = false)
  /\ sendTransaction (Sample.props None) (Sample.form Sample.recipient "0.5")
     = (Returned tt,
        {| state := withError "Wallet not connected"
                      (state (Sample.form Sample.recipient "0.5"));
           trace := [] |}).
Proof.
  apply (send_without_client (Sample.props None)
           (Sample.form Sample.recipient "0.5")).
  reflexivity.
Defined.




(** C7: when the submission succeeds, the form ends with a success
    message that contains the transaction hash, with recipient and
    amount empty, and with gas price and gas limit as they were. *)
Theorem send_success_resets_form (p : SendTransactionProps)
    (w : World TransactionState) (w3 : Eth.Web3)
    (tx : Eth.Transaction) (st : TransactionState) (receipt : Eth.Receipt) :
  web3 p = Some w3 ->
  trace (snd (sendTransaction p w))
    = (trace w ++ [(Eth.eth_sendTransaction tx, st)])%list ->
  Eth.sendTransaction w3 tx = Returned receipt ->
  let after := state (snd (sendTransaction p w)) in
  (exists msg, success after = Some msg
               /\ contains msg (Eth.transactionHash receipt) = true)
  /\ to after = ""
  /\ amount after = ""
  /\ gasPrice after = gasPrice (state w)
  /\ gasLimit after = gasLimit (state w).
Proof.
  intros Hw3 Htrace Hsent. cbn zeta.
  destruct (sendTransaction_submits p w tx st Htrace) as (w3' & Hw3' & Hst & Hrun).
  assert (w3' = w3) by congruence. subst w3'.
  rewrite Hrun, Hsent, Hst.
  cbn [snd state succeeded submitting success to amount gasPrice gasLimit].
  repeat split.
  eexists. split; [reflexivity | apply contains_end].
Qed.

Lemma send_success_resets_form_witness :
  let p := Sample.props (Some Sample.web3) in
  let w := Sample.form Sample.recipient "0.5" in
  let after := state (snd (sendTransaction p w)) in
  (exists msg, success after = Some msg
               /\ contains msg (Eth.transactionHash Sample.receipt) = true)
  /\ to after = ""
  /\ amount after = ""
  /\ gasPrice after = "20"
  /\ gasLimit after = "21000".
Proof.
  apply (send_success_resets_form (Sample.props (Some Sample.web3))
           (Sample.form Sample.recipient "0.5") Sample.web3
           {| Eth.from := "0x52908400098527886e0f7030069857d2e4169ee7";
              Eth.to := Sample.recipient;
              Eth.value := "500000000000000000";
              Eth.gas := "21000";
              Eth.gasPrice := "20000000000" |}
           (submitting (state (Sample.form Sample.recipient "0.5")))
           Sample.receipt).
  - reflexivity.
  - vm_compute. reflexivity.
  - reflexivity.
Defined.

(** C8: in every run of [sendTransaction] that passes the checks and
    reaches the submission, the request is in flight with the
    processing flag set, and the run returns with the flag cleared
    whether the client answers or rejects.  On success the success
    message is recorded; on failure the message of the error the client
    rejected with is recorded in the error field.  (A value thrown that
    is no [Error] has no message the handler reads: the fixed text
    stands in for it.) *)
Theorem send_processing_flag (p : SendTransactionProps)
    (w : World TransactionState) (w3 : Eth.Web3)
    (tx : Eth.Transaction) (st : TransactionState) :
  web3 p = Some w3 ->
  trace (snd (sendTransaction p w))
    = (trace w ++ [(Eth.eth_sendTransaction tx, st)])%list ->
  let r := sendTransaction p w in
  isProcessing st = true
  /\ fst r = Returned tt
  /\ isProcessing (state (snd r)) = false
  /\ (forall receipt, Eth.sendTransaction w3 tx = Returned receipt ->
        success (state (snd r))
        = Some ("Transaction successful! Hash: " ++ Eth.transactionHash receipt)
        /\ error (state (snd r)) = None)
  /\ (forall message code,
        Eth.sendTransaction w3 tx = Threw (ErrorObject message code) ->
        error (state (snd r)) = Some message
        /\ success (state (snd r)) = None)
  /\ (forall t,
        Eth.sendTransaction w3 tx = Threw t ->
        (forall message code, t <> ErrorObject message code) ->
        error (state (snd r)) = Some "Transaction failed").
Proof.
  intros Hw3 Htrace. cbn zeta.
  destruct (sendTransaction_submits p w tx st Htrace) as (w3' & Hw3' & Hst & Hrun).
  assert (w3' = w3) by congruence. subst w3'.
  rewrite Hrun. cbn [fst snd state]. split; [now rewrite Hst|].
  split; [reflexivity|].
  split; [destruct (Eth.sendTransaction w3 tx); reflexivity|].
  split; [intros receipt H; rewrite H, Hst; split; reflexivity|].
  split; [intros message code H; rewrite H, Hst; split; reflexivity|].
  intros t H Hno. rewrite H.
  destruct t as [message code|message code|]; [|reflexivity..].
  now destruct (Hno message code).
Qed.

Lemma send_processing_flag_witness :
  let p := Sample.props
             (Some (Sample.client
                      (Threw (ErrorObject "insufficient funds for gas" None)))) in
  let w := Sample.form Sample.recipient "0.5" in
  let r := sendTransaction p w in
  isProcessing (submitting (state w)) = true
  /\ isProcessing (state (snd r)) = false
  /\ error (state (snd r)) = Some "insufficient funds for gas".
Proof.
  destruct (send_processing_flag
              (Sample.props
                 (Some (Sample.client
                          (Threw (ErrorObject "insufficient funds for gas" None)))))
              (Sample.form Sample.recipient "0.5")
              (Sample.client (Threw (ErrorObject "insufficient funds for gas" None)))
              {| Eth.from := "0x52908400098527886e0f7030069857d2e4169ee7";
                 Eth.to := Sample.recipient;
                 Eth.value := "500000000000000000";
                 Eth.gas := "21000";
                 Eth.gasPrice := "20000000000" |}
              (submitting (state (Sample.form Sample.recipient "0.5"))))
    as (Hflight & _ & Hdone & _ & Herr & _).
  - reflexivity.
  - vm_compute. reflexivity.
  - split; [exact Hflight|]. split; [exact Hdone|].
    apply (Herr "insufficient funds for gas" None). reflexivity.
Defined.



(** C4, as the code has it: [isValidAmount] is true exactly when the
    number [parseFloat] reads from the string is numeric, finite and
    strictly greater than zero, or is +Infinity; that number is a
    positive one that is not zero.  In particular the answer is false
    for "0" and for "-1". *)
Theorem isValidAmount_iff (amount : string) :
  (isValidAmount amount = true <->
   numericFinitePositive amount = true
   \/ Number.parseFloat amount = S754_infinity false)
  /\ (numericFinitePositive amount = true <->
      exists m e, Number.parseFloat amount = S754_finite false m e)
  /\ isValidAmount "0" = false
  /\ isValidAmount "-1" = false.
Proof.
  split; [|split; [|split; vm_compute; reflexivity]];
    unfold isValidAmount, numericFinitePositive;
    destruct (Number.parseFloat amount) as [s|s| |s m e]; cbn;
    try destruct s; cbn; split;
    try discriminate; eauto;
    try (intros [H|H]; discriminate);
    try (intros (m' & e' & H); discriminate).
Qed.

(** What [parseFloat] makes of a few amounts: a numeric prefix is
    enough, and a numeral too large for a number reads as Infinity. *)
Example isValidAmount_samples :
  isValidAmount "0.5" = true
  /\ isValidAmount " 2.5 ETH" = true
  /\ isValidAmount "1e999" = true
  /\ isValidAmount "" = false
  /\ isValidAmount "abc" = false
  /\ isValidAmount "-0" = false
  /\ isValidAmount "1e-400" = false.
Proof. vm_compute. repeat split. Qed.

(** C4 as stated fails on the word finite: "Infinity" is accepted. *)
Lemma isValidAmount_accepts_Infinity :
  isValidAmount "Infinity" = true
  /\ numericFinitePositive "Infinity" = false.
Proof. vm_compute. split; reflexivity. Qed.

End SendTransactionFacts.

(** * Numerals read back *)
Module NumeralFacts.
Import Number NumberFacts Digits.

Lemma digit_cases (d : Z) :
  isDigit d ->
  d = 0 \/ d = 1 \/ d = 2 \/ d = 3 \/ d = 4 \/ d = 5 \/ d = 6 \/ d = 7
  \/ d = 8 \/ d = 9.
Proof. unfold isDigit. lia. Qed.

Ltac each_digit d H :=
  destruct (digit_cases d H) as [->|[->|[->|[->|[->|[->|[->|[->|[->| ->]]]]]]]]].

Lemma decDigit_ofDigit (d : Z) :
  isDigit d -> Chars.decDigit (Chars.ofDigit d) = Some d.
Proof. intros H. each_digit d H; reflexivity. Qed.

Lemma radixDigit_ofDigit (d : Z) :
  isDigit d -> Chars.radixDigit 10 (Chars.ofDigit d) = Some d.
Proof. intros H. each_digit d H; reflexivity. Qed.

Lemma ofDigit_plain (d : Z) :
  isDigit d ->
  Chars.isWhiteSpace (Chars.ofDigit d) = false
  /\ Chars.ofDigit d <> "-"%char /\ Chars.ofDigit d <> "+"%char
  /\ Chars.ofDigit d <> "x"%char /\ Chars.ofDigit d <> "X"%char
  /\ Chars.ofDigit d <> "o"%char /\ Chars.ofDigit d <> "O"%char
  /\ Chars.ofDigit d <> "b"%char /\ Chars.ofDigit d <> "B"%char
  /\ Chars.ofDigit d <> "I"%char /\ Chars.ofDigit d <> "."%char.
Proof. intros H. each_digit d H; repeat split; discriminate. Qed.

(** Induction on a number through its decimal digits. *)
Lemma decimal_ind (P : Z -> Prop) :
  (forall n, 0 <= n < 10 -> P n) ->
  (forall n, 10 <= n -> P (n / 10) -> P n) ->
  forall n, 0 <= n -> P n.
Proof.
  intros Hs Hstep n Hn.
  apply (Z_lt_induction (fun n => 0 <= n -> P n)); try assumption.
  clear n Hn. intros n IH Hn.
  destruct (Z_lt_le_dec n 10) as [|H10]; [apply Hs; lia|].
  apply Hstep; [assumption|].
  assert (0 <= n / 10 < n).
  { split; [apply Z.div_pos; lia | apply Z.div_lt; lia]. }
  apply IH; lia.
Qed.

Lemma decimalDigits_digits (n : Z) :
  0 <= n -> Forall isDigit (decimalDigits n).
Proof.
  revert n. apply decimal_ind.
  - intros n H. rewrite decimalDigits_small by assumption.
    constructor; [exact H | constructor].
  - intros n H IH. rewrite decimalDigits_step by assumption.
    apply Forall_app. split; [exact IH|].
    constructor; [|constructor]. unfold isDigit.
    apply Z.mod_pos_bound. lia.
Qed.

Lemma digitsValue_app (radix : Z) (ds : list Z) (d : Z) :
  Chars.digitsValue radix (ds ++ [d]) = Chars.digitsValue radix ds * radix + d.
Proof. unfold Chars.digitsValue. now rewrite fold_left_app. Qed.

(** The digits of a number denote it. *)
Lemma digitsValue_decimalDigits (n : Z) :
  0 <= n -> Chars.digitsValue 10 (decimalDigits n) = n.
Proof.
  revert n. apply decimal_ind.
  - intros n H. rewrite decimalDigits_small by assumption. reflexivity.
  - intros n H IH. rewrite decimalDigits_step, digitsValue_app, IH by assumption.
    pose proof (Z.div_mod n 10 ltac:(lia)). lia.
Qed.

(** A written run of digits is read back in full, up to what follows. *)
Lemma takeDigits_written (digit : ascii -> option Z) (ds : list Z) (rest : string) :
  Forall (fun d => digit (Chars.ofDigit d) = Some d) ds ->
  Chars.takeDigits digit (stringOfDigits ds ++ rest)
  = ((ds ++ fst (Chars.takeDigits digit rest))%list,
     snd (Chars.takeDigits digit rest)).
Proof.
  induction 1 as [|d ds Hd _ IH]; cbn [stringOfDigits fold_right append app].
  - now destruct (Chars.takeDigits digit rest).
  - cbn [Chars.takeDigits]. rewrite Hd.
    fold (stringOfDigits ds). rewrite IH. reflexivity.
Qed.

Lemma append_empty (s : string) : s ++ "" = s.
Proof. induction s as [|c s IH]; cbn; [reflexivity | now rewrite IH]. Qed.

Lemma takeDigits_numeral (digit : ascii -> option Z) (n : Z) :
  0 <= n ->
  (forall d, isDigit d -> digit (Chars.ofDigit d) = Some d) ->
  Chars.takeDigits digit (stringOfZ n) = (decimalDigits n, "").
Proof.
  intros Hn Hdigit. unfold stringOfZ.
  replace (n <? 0) with false by (symmetry; apply Z.ltb_ge; lia).
  rewrite <- (append_empty (stringOfDigits (decimalDigits n))).
  rewrite takeDigits_written.
  - cbn. now rewrite app_nil_r.
  - eapply Forall_impl; [|apply decimalDigits_digits; assumption].
    exact Hdigit.
Qed.

(** A numeral starts with a digit. *)
Lemma stringOfZ_head (n : Z) :
  0 <= n ->
  exists d r, isDigit d /\ stringOfZ n = String (Chars.ofDigit d) r.
Proof.
  intros Hn. unfold stringOfZ.
  replace (n <? 0) with false by (symmetry; apply Z.ltb_ge; lia).
  pose proof (decimalDigits_digits n Hn) as Hd.
  pose proof (decimalDigits_nonempty n Hn) as Hne.
  destruct (decimalDigits n) as [|d ds]; [cbn in Hne; lia|].
  inversion Hd; subst. exists d, (stringOfDigits ds). split; [assumption|reflexivity].
Qed.


Lemma prefix2_inv (a b : ascii) (s : string) :
  String.prefix (String a (String b "")) s = true ->
  exists r, s = String a (String b r).
Proof.
  intros H. apply String.prefix_correct in H.
  destruct s as [|c [|c' r]]; cbn in H; try discriminate.
  injection H as -> -> _. now exists r.
Qed.

Lemma prefix_head (a c : ascii) (p s : string) :
  a <> c -> String.prefix (String a p) (String c s) = false.
Proof.
  intros Hne. destruct (String.prefix (String a p) (String c s)) eqn:E;
    [|reflexivity].
  apply String.prefix_correct in E. cbn in E. injection E as E _.
  now elim Hne.
Qed.

(** The second code unit of a numeral, when there is one, is a digit. *)
Lemma numeral_second (n : Z) (a b : ascii) (r : string) :
  0 <= n -> stringOfZ n = String a (String b r) ->
  exists d, isDigit d /\ b = Chars.ofDigit d.
Proof.
  intros Hn. unfold stringOfZ.
  replace (n <? 0) with false by (symmetry; apply Z.ltb_ge; lia).
  pose proof (decimalDigits_digits n Hn) as Hd.
  destruct (decimalDigits n) as [|d1 [|d2 ds]]; cbn; try discriminate.
  intros [= _ <- _]. inversion Hd as [|? ? _ Hd']; subst.
  inversion Hd'; subst. now exists d2.
Qed.

Lemma numeral_no_prefix (n : Z) (a b : ascii) :
  0 <= n -> (forall d, isDigit d -> Chars.ofDigit d <> b) ->
  String.prefix (String a (String b "")) (stringOfZ n) = false.
Proof.
  intros Hn Hb.
  destruct (String.prefix (String a (String b "")) (stringOfZ n)) eqn:E;
    [|reflexivity].
  destruct (prefix2_inv _ _ _ E) as (r & Hr).
  destruct (numeral_second n a b r Hn Hr) as (d & Hd & ->).
  now elim (Hb d Hd).
Qed.

Lemma trimStart_digit (d : Z) (r : string) :
  isDigit d ->
  Chars.trimStart (String (Chars.ofDigit d) r) = String (Chars.ofDigit d) r.
Proof. intros H. each_digit d H; reflexivity. Qed.

Lemma scanSign_digit (d : Z) (r : string) :
  isDigit d ->
  Chars.scanSign (String (Chars.ofDigit d) r)
  = (false, String (Chars.ofDigit d) r).
Proof. intros H. each_digit d H; reflexivity. Qed.

(** [BigInt] reads a written integer back. *)
Lemma BigInt_ofString_toString (n : Z) :
  0 <= n -> BigInt.ofString (BigInt.toString n) = Some n.
Proof.
  intros Hn. unfold BigInt.toString, BigInt.ofString.
  destruct (stringOfZ_head n Hn) as (d & r & Hd & Hs).
  rewrite Hs, trimStart_digit by assumption. rewrite <- Hs.
  assert (Hp : forall a b, (forall d, isDigit d -> Chars.ofDigit d <> b) ->
               String.prefix (String a (String b "")) (stringOfZ n) = false)
    by (intros; now apply numeral_no_prefix).
  rewrite !Hp by (intros d' Hd'; apply (ofDigit_plain d' Hd')).
  cbn [orb]. rewrite Hs, scanSign_digit by assumption.
  rewrite <- Hs. unfold BigInt.digitsToEnd.
  rewrite takeDigits_numeral by (assumption || apply radixDigit_ofDigit).
  pose proof (decimalDigits_nonempty n Hn) as Hne.
  rewrite <- (digitsValue_decimalDigits n Hn) at 2.
  destruct (decimalDigits n); [cbn in Hne; lia | reflexivity].
Qed.


Lemma takeDigits_all_nonneg (digit : ascii -> option Z) (s : string) :
  (forall c v, digit c = Some v -> 0 <= v) ->
  Forall (fun d => 0 <= d) (fst (Chars.takeDigits digit s)).
Proof.
  intros Hdigit. induction s as [|c s IH]; cbn; [constructor|].
  destruct (digit c) as [v|] eqn:E; [|constructor].
  destruct (Chars.takeDigits digit s) as [ds rest].
  constructor; [now apply Hdigit in E | exact IH].
Qed.

Lemma decDigit_nonneg (c : ascii) (v : Z) : Chars.decDigit c = Some v -> 0 <= v.
Proof.
  unfold Chars.decDigit. destruct (_ && _) eqn:E; [|discriminate].
  intros [= <-]. apply andb_true_iff in E. destruct E as [E _].
  apply Z.leb_le in E. lia.
Qed.

Lemma readDecimal_nonneg (s : string) (ip fp : list Z) :
  Web3Utils.readDecimal s = Some (ip, fp) ->
  Forall (fun d => 0 <= d) (ip ++ fp).
Proof.
  unfold Web3Utils.readDecimal.
  pose proof (takeDigits_all_nonneg Chars.decDigit s decDigit_nonneg) as Hip.
  destruct (Chars.takeDigits Chars.decDigit s) as [ds r]. cbn [fst] in Hip.
  destruct ds as [|d ds]; [discriminate|].
  destruct r as [|c r'].
  - intros [= <- <-]. now rewrite app_nil_r.
  - destruct c as [[] [] [] [] [] [] [] []]; try discriminate.
    pose proof (takeDigits_all_nonneg Chars.decDigit r' decDigit_nonneg) as Hfp.
    destruct (Chars.takeDigits Chars.decDigit r') as [[|f fs] [|c' r'']];
      try discriminate.
    intros [= <- <-]. apply Forall_app. split; assumption.
Qed.

(** What [toWei] returns is the numeral of a whole, non-negative number
    of minor units. *)
Lemma toWei_numeral (v : string) (u : Web3Utils.EtherUnits) (s : string) :
  Web3Utils.toWei v u = Some s -> exists W, 0 <= W /\ s = BigInt.toString W.
Proof.
  unfold Web3Utils.toWei.
  destruct (Web3Utils.readDecimal v) as [[ip fp]|] eqn:E; [|discriminate].
  destruct (_ <=? _)%nat; [|discriminate]. intros [= <-].
  eexists. split; [|reflexivity].
  apply Z.mul_nonneg_nonneg; [|apply Z.pow_nonneg; lia].
  apply WalletConnectFacts.digitsValue_nonneg; [lia|].
  now apply readDecimal_nonneg with (s := v).
Qed.

Lemma readDecimal_numeral (n : Z) :
  0 <= n -> Web3Utils.readDecimal (stringOfZ n) = Some (decimalDigits n, []).
Proof.
  intros Hn. unfold Web3Utils.readDecimal.
  rewrite takeDigits_numeral by (assumption || apply decDigit_ofDigit).
  pose proof (decimalDigits_nonempty n Hn) as Hne.
  destruct (decimalDigits n); [cbn in Hne; lia | reflexivity].
Qed.

(** [fromWei] converts every non-negative whole number of minor
    units. *)
Lemma fromWei_defined (n : Z) (u : Web3Utils.EtherUnits) :
  0 <= n -> exists r, Web3Utils.fromWei (BigInt.toString n) u = Some r.
Proof.
  intros Hn. unfold Web3Utils.fromWei, BigInt.toString.
  rewrite readDecimal_numeral by assumption.
  destruct (stripTrailingZeros _); eexists; reflexivity.
Qed.

(** [parseFloat] reads a written integer as the number nearest to it. *)
Lemma parseFloat_numeral (n : Z) :
  0 <= n -> parseFloat (stringOfZ n) = ofZ n.
Proof.
  intros Hn. unfold parseFloat.
  destruct (stringOfZ_head n Hn) as (d & r & Hd & Hs).
  rewrite Hs, trimStart_digit, scanSign_digit by assumption.
  rewrite prefix_head
    by (intros E; destruct (ofDigit_plain d Hd) as (_ & H); decompose [and] H;
        congruence).
  rewrite <- Hs. unfold scanUnsignedDecimal.
  rewrite takeDigits_numeral by (assumption || apply decDigit_ofDigit).
  pose proof (decimalDigits_nonempty n Hn) as Hne.
  rewrite <- (digitsValue_decimalDigits n Hn) at 2.
  destruct (decimalDigits n) as [|d0 ds] eqn:E; [cbn in Hne; lia|].
  cbn [scanExponent]. unfold ofDecimal. cbn [Z.leb Z.compare].
  rewrite Z.pow_0_r, Z.mul_1_r. reflexivity.
Qed.

(** An integer below 2^53 is written by [toFixed] as its numeral
    followed by as many zeros as decimals are asked for. *)
Lemma toFixed_ofZ (n f : Z) :
  0 <= n < 2 ^ 53 -> 0 < f ->
  toFixed (ofZ n) f = stringOfZ n ++ "." ++ Chars.repeat0 (Z.to_nat f).
Proof.
  intros [Hn Hlt] Hf. destruct n as [|p|p]; try lia.
  - cbn [ofZ binary_normalize toFixed].
    replace (f =? 0) with false by (symmetry; apply Z.eqb_neq; lia).
    reflexivity.
  - rewrite (ofZ_small p Hlt). unfold toFixed.
    destruct (magnitude_aligned p Hlt) as (den & Hden & ->).
    assert (Hbig : Zpos p < 10 ^ 21)
      by (apply Z.lt_trans with (1 := Hlt); reflexivity).
    replace (10 ^ 21 * den <=? Zpos p * den) with false
      by (symmetry; apply Z.leb_gt; nia).
    assert (Hpow : 0 < 10 ^ f) by (apply Z.pow_pos_nonneg; lia).
    replace ((2 * (Zpos p * den) * 10 ^ f + den) / (2 * den))
      with (Zpos p * 10 ^ f).
    2:{ replace (2 * (Zpos p * den) * 10 ^ f + den)
          with (Zpos p * 10 ^ f * (2 * den) + den) by lia.
        rewrite Z.div_add_l, (Z.div_small den (2 * den)) by lia. lia. }
    assert (Hdz : decimalDigits (Zpos p * 10 ^ f)
                  = (decimalDigits (Zpos p) ++ repeat 0 (Z.to_nat f))%list).
    { rewrite <- (Z2Nat.id f) at 1 by lia. apply decimalDigits_zeros. lia. }
    cbv zeta. rewrite !Hdz.
    pose proof (decimalDigits_nonempty (Zpos p) ltac:(lia)) as Hne.
    set (ds := decimalDigits (Zpos p)) in *. set (F := Z.to_nat f).
    assert (HF : (1 <= F)%nat) by (unfold F; lia).
    replace (F + 1 - List.length (ds ++ repeat 0%Z F))%nat with 0%nat
      by (rewrite length_app, repeat_length; lia).
    cbn [repeat app].
    replace (List.length (ds ++ repeat 0%Z F) - F)%nat with (List.length ds)
      by (rewrite length_app, repeat_length; lia).
    rewrite firstn_app, skipn_app, Nat.sub_diag, firstn_all, skipn_all.
    cbn [firstn skipn app]. rewrite app_nil_r.
    replace (f =? 0) with false by (symmetry; apply Z.eqb_neq; lia).
    rewrite stringOfDigits_zeros. unfold stringOfZ. reflexivity.
Qed.

End NumeralFacts.

(** * Properties of what is rendered *)
Module DisplayFacts.
Import Display NumeralFacts.

Lemma length_append (a b : string) :
  String.length (a ++ b) = (String.length a + String.length b)%nat.
Proof. induction a as [|c a IH]; cbn; [reflexivity | now rewrite IH]. Qed.

Lemma length_substring (s : string) (n m : nat) :
  String.length (String.substring n m s) = Nat.min m (String.length s - n).
Proof.
  revert n m. induction s as [|c s IH]; intros [|n] [|m]; cbn;
    try reflexivity; rewrite IH; cbn; lia.
Qed.

Lemma append_assoc (a b c : string) : (a ++ b) ++ c = a ++ b ++ c.
Proof. induction a as [|x a IH]; cbn; [reflexivity | now rewrite IH]. Qed.

Lemma substring_head (x r : string) :
  String.substring 0 (String.length x) (x ++ r) = x.
Proof.
  induction x as [|c x IH]; cbn; [now destruct r | now rewrite IH].
Qed.

Lemma substring_tail (x y : string) :
  String.substring (String.length x) (String.length y) (x ++ y) = y.
Proof.
  induction x as [|c x IH]; cbn; [|exact IH].
  rewrite <- (append_empty y) at 2. apply substring_head.
Qed.

(** X1: a formatted address keeps the first six and the last four code
    units of the address around three dots, so an address of ten code
    units or more is shown in thirteen; a shorter one is shown with
    its head and its tail overlapping. *)
Theorem formatAddress_shape (address : string) :
  String.length (formatAddress address)
  = (Nat.min 6 (String.length address) + 3
     + Nat.min 4 (String.length address))%nat
  /\ forall head middle tail,
       address = head ++ middle ++ tail ->
       String.length head = 6%nat -> String.length tail = 4%nat ->
       formatAddress address = head ++ "..." ++ tail.
Proof.
  unfold formatAddress, slice, clampIndex. cbn [Z.ltb Z.compare].
  set (n := String.length address). split.
  - rewrite !length_append, !length_substring. cbn [String.length]. fold n. lia.
  - intros head middle tail -> Hh Ht.
    assert (Hn : n = (6 + String.length middle + 4)%nat)
      by (unfold n; rewrite !length_append; lia).
    replace (Z.to_nat (Z.min 0 (Z.of_nat n))) with 0%nat by lia.
    replace (Z.to_nat (Z.max (Z.min 6 (Z.of_nat n) - Z.min 0 (Z.of_nat n)) 0))
      with (String.length head) by lia.
    rewrite substring_head. f_equal. f_equal.
    replace (Z.to_nat (Z.max (Z.of_nat n + -4) 0))
      with (String.length (head ++ middle)) by (rewrite length_append; lia).
    replace (Z.to_nat (Z.max (Z.of_nat n - Z.max (Z.of_nat n + -4) 0) 0))
      with (String.length tail) by lia.
    rewrite <- append_assoc. apply substring_tail.
Qed.


Example formatAddress_sample :
  formatAddress "0x52908400098527886e0f7030069857d2e4169ee7" = "0x5290...9ee7"
  /\ formatAddress "0xabc" = "0xabc...xabc"
  /\ formatAddress "" = "...".
Proof. vm_compute. repeat split. Qed.

(** A whole balance below 2^53 is shown as its numeral with four
    zeros. *)
Lemma balanceText_whole (ws : WalletConnect.WalletState) (n : Z) :
  WalletConnect.balance ws = Some (Number.stringOfZ n) ->
  0 <= n < 2 ^ 53 ->
  balanceText ws
  = Number.stringOfZ n ++ ".0000 "
      ++ interpolate (WalletConnect.getNetworkSymbol ws).
Proof.
  intros Hb Hn. unfold balanceText. rewrite Hb.
  destruct (stringOfZ_head n ltac:(lia)) as (d & r & Hd & Hs).
  rewrite Hs at 1. cbn [truthy]. rewrite <- Hs.
  rewrite parseFloat_numeral, toFixed_ofZ by lia.
  rewrite append_assoc. reflexivity.
Qed.

(** [fromWei] of a whole number of the major unit is its numeral. *)
Lemma fromWei_whole (n : Z) :
  0 <= n ->
  Web3Utils.fromWei (BigInt.toString (n * 10 ^ 18)) Web3Utils.ether
  = Some (Number.stringOfZ n).
Proof.
  intros Hn. unfold Web3Utils.fromWei, BigInt.toString.
  rewrite readDecimal_numeral by lia.
  rewrite digitsValue_decimalDigits by lia.
  change (10 ^ Z.of_nat (Web3Utils.decimals Web3Utils.ether)) with (10 ^ 18).
  rewrite Z.mod_mul, Z.div_mul by lia. reflexivity.
Qed.

Lemma connectWallet_balance (env : Eth.Browser) (w : World WalletConnect.Hooks)
    (provider : Eth.Provider) (accounts : list string) (wei : Z)
    (converted : string) :
  Eth.ethereum env = Some provider ->
  Eth.requestAccounts provider = Returned accounts ->
  Eth.getBalance (Eth.newWeb3 env provider) (hd_error accounts) = Returned wei ->
  Eth.utils_fromWei (Eth.newWeb3 env provider) (BigInt.toString wei)
    Web3Utils.ether = Returned converted ->
  WalletConnect.balance
    (WalletConnect.walletState (state (snd (WalletConnect.connectWallet env w))))
  = Some converted.
Proof.
  intros He Ha Hb Hf. destruct w as [[ws w3] t].
  unfold WalletConnect.connectWallet, WalletConnect.getCurrentNetwork,
    WalletConnect.setWalletState, WalletConnect.setWeb3,
    tryCatch, bind, ret, lift, request, setState. cbn.
  rewrite He. cbn. rewrite Ha. cbn.
  destruct (Eth.chainId provider); cbn; rewrite Hb; cbn; rewrite Hf;
    reflexivity.
Qed.

(** X17: an account that holds a whole number of the major unit, below
    2^53, is shown after connecting with exactly that number and four
    zeros, followed by the currency symbol. *)
Theorem connected_balance_text (env : Eth.Browser) (w : World WalletConnect.Hooks)
    (provider : Eth.Provider) (accounts : list string) (n : Z) :
  Eth.ethereum env = Some provider ->
  Eth.requestAccounts provider = Returned accounts ->
  Eth.conforms (Eth.newWeb3 env provider) ->
  Eth.getBalance (Eth.newWeb3 env provider) (hd_error accounts)
  = Returned (n * 10 ^ 18) ->
  0 <= n < 2 ^ 53 ->
  let ws := WalletConnect.walletState
              (state (snd (WalletConnect.connectWallet env w))) in
  balanceText ws
  = Number.stringOfZ n ++ ".0000 "
      ++ interpolate (WalletConnect.getNetworkSymbol ws).
Proof.
  intros He Ha (_ & Hconv) Hb Hn. cbv zeta.
  apply balanceText_whole; [|assumption].
  pose proof (Hconv _ _ _ (fromWei_whole n ltac:(lia))) as Hf.
  exact (connectWallet_balance env w provider accounts _ _ He Ha Hb Hf).
Qed.

Lemma connected_balance_text_witness :
  balanceText
    (WalletConnect.walletState
       (state (snd (WalletConnect.connectWallet (Sample.browser "0x89")
                      WalletConnect.initialWorld))))
  = "1.0000 MATIC".
Proof.
  rewrite (connected_balance_text (Sample.browser "0x89")
             WalletConnect.initialWorld (Sample.provider "0x89")
             ["0x52908400098527886e0f7030069857d2e4169ee7"] 1).
  - reflexivity.
  - reflexivity.
  - reflexivity.
  - apply SendTransactionFacts.sample_conforms.
  - reflexivity.
  - lia.
Defined.

End DisplayFacts.

(** * More properties of the connection manager *)
Module WalletConnectMore.
Import WalletConnect WalletConnectFacts Settled.

(** X2: every key of the table finds its own descriptor. *)
Theorem known_chain_descriptor (key : string) (info : Info.t) :
  In (key, info) NETWORKS -> getNetworkInfo key = Descriptor info.
Proof.
  cbn. intros H.
  repeat (destruct H as [[= <- <-]|H]; [reflexivity|]). contradiction.
Qed.

Lemma known_chain_descriptor_witness :
  getNetworkInfo "0x89"
  = Descriptor {| Info.name := "Polygon Mainnet"; Info.isTestnet := false;
                  Info.symbol := "MATIC" |}.
Proof.
  apply (known_chain_descriptor "0x89"). cbn. auto 10.
Defined.

Lemma ownProperty_symbol (key : string) (info : Info.t) :
  ownProperty NETWORKS key = Some info ->
  Info.symbol info = "ETH" \/ Info.symbol info = "MATIC".
Proof.
  unfold NETWORKS. cbn [ownProperty].
  repeat (destruct (String.eqb _ key); [intros [= <-]; cbn; auto|]).
  discriminate.
Qed.

Lemma existsb_In (key : string) (keys : list string) :
  existsb (String.eqb key) keys = true -> In key keys.
Proof.
  intros H. apply existsb_exists in H. destruct H as (k & Hin & Heq).
  apply String.eqb_eq in Heq. now subst.
Qed.

(** X3: the currency symbol is ETH or MATIC, and it is missing only for a
    chain id that names an inherited member. *)
Theorem getNetworkSymbol_cases (ws : WalletState) :
  getNetworkSymbol ws = Some "ETH"
  \/ getNetworkSymbol ws = Some "MATIC"
  \/ (getNetworkSymbol ws = None
      /\ exists key, chainId (network ws) = Some key /\ In key inheritedKeys).
Proof.
  unfold getNetworkSymbol.
  destruct (chainId (network ws)) as [[|c key]|]; cbn [truthy]; auto.
  unfold getNetworkInfo, lookup.
  destruct (ownProperty NETWORKS (String c key)) as [info|] eqn:E.
  - destruct (ownProperty_symbol _ _ E) as [-> | ->]; auto.
  - destruct (existsb _ inheritedKeys) eqn:Ei; auto.
    right. right. split; [reflexivity|].
    exists (String c key). split; [reflexivity | now apply existsb_In].
Qed.


(** X4: [getCurrentNetwork] never throws and leaves the hooks alone.
    Without a provider it sends nothing and answers the unknown
    network; with one it sends the chain-id request once and answers,
    when the request fails, the unknown network (chain id null), and
    otherwise the descriptor [getNetworkInfo] finds for the provider's
    answer, under that very chain id. *)
Theorem getCurrentNetwork_total (env : Eth.Browser) (w : World Hooks) :
  let r := getCurrentNetwork env w in
  match Eth.ethereum env with
  | None => r = (Returned unknownNetwork, w)
  | Some provider =>
      snd r = {| state := state w;
                 trace := (trace w ++ [(Eth.eth_chainId, state w)])%list |}
      /\ match Eth.chainId provider with
         | Returned c =>
             fst r = Returned (spreadInfo c (getNetworkInfo c))
             /\ Current.chainId (spreadInfo c (getNetworkInfo c)) = Some c
         | Threw _ => fst r = Returned unknownNetwork
         end
  end.
Proof.
  unfold getCurrentNetwork, tryCatch, bind, ret, request. cbn zeta.
  destruct (Eth.ethereum env) as [provider|]; [|reflexivity].
  destruct (Eth.chainId provider) as [c|e]; cbn; repeat split.
  destruct (getNetworkInfo c); reflexivity.
Qed.

(** X5: a connection attempt is all or nothing for the wallet state:
    either the whole state is replaced by a connected one (no error,
    the send form hidden, a balance and a client in place), or nothing
    but the error changes, to one of the two messages. *)
Theorem connectWallet_all_or_nothing (env : Eth.Browser) (w : World Hooks) :
  let before := walletState (state w) in
  let after := walletState (state (snd (connectWallet env w))) in
  (isConnected after = true /\ error after = None
   /\ showSendForm after = false /\ balance after <> None
   /\ web3 (state (snd (connectWallet env w))) <> None)
  \/ (after = withError "Please install MetaMask!" before
      /\ Eth.ethereum env = None)
  \/ after = withError "Error connecting to wallet" before.
Proof.
  destruct w as [[ws w3] t]. unfold_programs. cbn.
  destruct (Eth.ethereum env) as [provider|]; cbn; [|auto].
  destruct (Eth.requestAccounts provider); cbn; [|auto].
  destruct (Eth.chainId provider); cbn;
    destruct (Eth.getBalance _ _); cbn; auto;
    destruct (Eth.utils_fromWei _ _ _); cbn; auto;
    left; repeat split; discriminate.
Qed.

(** X6: when the provider grants accounts and the balance can be read
    and converted, the component ends connected to the first account
    with the converted balance and the network of the chain the
    provider reports, and has sent, in this order, the authorization
    request, the chain-id request and the balance request. *)
Theorem connectWallet_success (env : Eth.Browser) (w : World Hooks)
    (provider : Eth.Provider) (accounts : list string) (wei : Z)
    (balanceInEth : string) :
  Eth.ethereum env = Some provider ->
  Eth.requestAccounts provider = Returned accounts ->
  Eth.getBalance (Eth.newWeb3 env provider) (hd_error accounts) = Returned wei ->
  Eth.utils_fromWei (Eth.newWeb3 env provider) (BigInt.toString wei)
    Web3Utils.ether = Returned balanceInEth ->
  let r := connectWallet env w in
  let after := walletState (state (snd r)) in
  isConnected after = true
  /\ account after = hd_error accounts
  /\ balance after = Some balanceInEth
  /\ error after = None
  /\ showSendForm after = false
  /\ web3 (state (snd r)) = Some (Eth.newWeb3 env provider)
  /\ chainId (network after)
     = match Eth.chainId provider with
       | Returned c => Some c
       | Threw _ => None
       end
  /\ List.map fst (trace (snd r))
     = (List.map fst (trace w)
        ++ [Eth.eth_requestAccounts; Eth.eth_chainId;
            Eth.eth_getBalance (hd_error accounts)])%list.
Proof.
  intros He Ha Hb Hf. destruct w as [[ws w3] t]. unfold_programs. cbn.
  rewrite He. cbn. rewrite Ha. cbn.
  destruct (Eth.chainId provider) as [c|e]; cbn; rewrite Hb; cbn;
    rewrite Hf; cbn; rewrite !map_app, <- !app_assoc; cbn;
    repeat split; destruct (getNetworkInfo c); reflexivity.
Qed.


Lemma connectWallet_success_witness :
  let r := connectWallet (Sample.browser "0xaa36a7") initialWorld in
  let after := walletState (state (snd r)) in
  isConnected after = true
  /\ account after = Some "0x52908400098527886e0f7030069857d2e4169ee7"
  /\ balance after = Some "1"
  /\ error after = None
  /\ showSendForm after = false
  /\ web3 (state (snd r)) = Some Sample.web3
  /\ chainId (network after) = Some "0xaa36a7"
  /\ List.map fst (trace (snd r))
     = [Eth.eth_requestAccounts; Eth.eth_chainId;
        Eth.eth_getBalance (Some "0x52908400098527886e0f7030069857d2e4169ee7")].
Proof.
  apply (connectWallet_success (Sample.browser "0xaa36a7") initialWorld
           (Sample.provider "0xaa36a7")
           ["0x52908400098527886e0f7030069857d2e4169ee7"] (10 ^ 18) "1");
    reflexivity.
Defined.

Ltac settle :=
  solve [ unfold settled; cbn;
          match goal with
          | ws : WalletState |- _ =>
              destruct ws as [[] ? ? ? ? ?]; cbn;
              [ intros [? ?]; split; (assumption || discriminate)
              | unfold emptyWith; cbn; intros [= -> -> -> ->]; reflexivity ]
          end ].

Lemma connectWallet_settled (env : Eth.Browser) (w : World Hooks) :
  settled (state w) -> settled (state (snd (connectWallet env w))).
Proof.
  destruct w as [[ws w3] t]. unfold_programs. cbn.
  destruct (Eth.ethereum env) as [provider|]; cbn; [|settle].
  destruct (Eth.requestAccounts provider); cbn; [|settle].
  destruct (Eth.chainId provider); cbn;
    destruct (Eth.getBalance _ _); cbn; try settle;
    destruct (Eth.utils_fromWei _ _ _); cbn; try settle;
    intros _; unfold settled; cbn; split; discriminate.
Qed.

Lemma updateBalance_settled (env : Eth.Browser) (w : World Hooks) :
  settled (state w) -> settled (state (snd (updateBalance env w))).
Proof.
  destruct w as [[ws w3] t]. unfold_programs. cbn.
  destruct w3 as [c|]; cbn; [|auto].
  destruct (truthy (account ws)) eqn:Ea; cbn; [|auto].
  destruct (Eth.getBalance c _); cbn; [|auto].
  destruct (Eth.utils_fromWei c _ _); cbn; [|auto].
  assert (G : settled {| walletState := ws; web3 := Some c |} ->
              forall n, settled
                {| walletState :=
                     {| isConnected := isConnected ws; account := account ws;
                        balance := Some a0; error := error ws; network := n;
                        showSendForm := showSendForm ws |};
                   web3 := Some c |}).
  { unfold settled. cbn. destruct ws as [[] acc ? ? ? ?]; cbn in *.
    - intros _ n. split; discriminate.
    - unfold emptyWith. intros [= -> -> -> ->]. discriminate. }
  destruct (Eth.ethereum env) as [provider|]; cbn; [|intros H; now apply G].
  destruct (Eth.chainId provider); cbn; intros H; now apply G.
Qed.

Lemma reachable_is_settled (w : World Hooks) :
  reachable (fun _ => True) w -> settled (state w).
Proof.
  induction 1 as [|w env a Hw IH _ Hoff]; [reflexivity|].
  destruct a; cbn [perform].
  - unfold checkIfWalletIsConnected, tryCatch, bind, request, ret,
      setWalletState, setState.
    destruct (Eth.ethereum env) as [provider|];
      [|destruct w as [[ws w3] t]; revert IH; cbn; settle].
    destruct (Eth.accounts provider) as [accounts|e];
      [|destruct w as [[ws w3] t]; revert IH; cbn; settle].
    destruct (0 <? Z.of_nat (List.length accounts)); [|exact IH].
    match goal with
    | |- context [connectWallet env ?w1] =>
        pose proof (connectWallet_settled env w1 IH) as H;
        pose proof (connectWallet_returns env w1) as R;
        destruct (connectWallet env w1) as [o w']
    end.
    cbn [fst snd] in *. subst o. exact H.
  - now apply connectWallet_settled.
  - now apply updateBalance_settled.
  - destruct w as [[ws w3] t]. cbn in Hoff. revert IH.
    unfold toggleSendForm, setWalletState, setState, settled. cbn.
    rewrite Hoff. auto.
  - reflexivity.
  - rewrite switchToMainnet_state. exact IH.
  - now apply updateBalance_settled.
  - unfold onAccountsChanged.
    destruct (Z.of_nat (List.length accounts) =? 0); [reflexivity|].
    now apply connectWallet_settled.
  - unfold onChainChanged, bind, getState, ret.
    destruct (isConnected (walletState (state w))) eqn:E; [|exact IH].
    now apply connectWallet_settled.
Qed.


(** X11: between two operations, whatever the provider answered so far,
    a connected component has a balance and a client, and a
    disconnected one has no account, no balance, no network and hides
    the send form. *)
Theorem reachable_connection_state (w : World Hooks) :
  reachable (fun _ => True) w ->
  let ws := walletState (state w) in
  (isConnected ws = true -> balance ws <> None /\ web3 (state w) <> None)
  /\ (isConnected ws = false ->
      account ws = None /\ balance ws = None
      /\ network ws = {| chainId := None; name := None; isTestnet := false |}
      /\ showSendForm ws = false).
Proof.
  intros H. apply reachable_is_settled in H. unfold settled in H. cbn zeta.
  destruct (isConnected (walletState (state w))).
  - split; [intros _; exact H | discriminate].
  - split; [discriminate|]. intros _. rewrite H. repeat split.
Qed.

Lemma reachable_connection_state_witness :
  let w := snd (perform (Sample.browser "0x1") ClickConnect initialWorld) in
  isConnected (walletState (state w)) = true
  /\ balance (walletState (state w)) <> None
  /\ web3 (state w) <> None.
Proof.
  assert (R : reachable (fun _ => True)
                (snd (perform (Sample.browser "0x1") ClickConnect initialWorld))).
  { apply reachable_step; [apply reachable_initial | exact I | reflexivity]. }
  split; [reflexivity|].
  apply (reachable_connection_state _ R). reflexivity.
Defined.

(** X7: on mount, when the provider reports no authorized account (or
    fails, or is absent), the check never asks for authorization: it
    sends at most the silent accounts query, keeps the client as it
    was, and changes nothing but, on absence or failure, the error. *)
Theorem check_without_accounts (env : Eth.Browser) (w : World Hooks) :
  (forall provider accounts,
     Eth.ethereum env = Some provider ->
     Eth.accounts provider = Returned accounts -> accounts = []) ->
  let r := checkIfWalletIsConnected env w in
  fst r = Returned tt
  /\ web3 (state (snd r)) = web3 (state w)
  /\ match Eth.ethereum env with
     | None =>
         trace (snd r) = trace w
         /\ walletState (state (snd r))
            = withError "Please install MetaMask to use this app!"
                (walletState (state w))
     | Some provider =>
         trace (snd r) = (trace w ++ [(Eth.eth_accounts, state w)])%list
         /\ walletState (state (snd r))
            = match Eth.accounts provider with
              | Returned _ => walletState (state w)
              | Threw _ => withError "Error checking wallet connection"
                             (walletState (state w))
              end
     end.
Proof.
  intros Hnone. cbn zeta.
  unfold checkIfWalletIsConnected, tryCatch, bind, request, ret,
    setWalletState, setState.
  destruct (Eth.ethereum env) as [provider|] eqn:He; [|repeat split].
  destruct (Eth.accounts provider) as [accounts|e] eqn:Ha; [|repeat split].
  rewrite (Hnone provider accounts eq_refl Ha). cbn. repeat split.
Qed.

Lemma check_without_accounts_witness :
  let r := checkIfWalletIsConnected Scenes.quiet initialWorld in
  fst r = Returned tt
  /\ web3 (state (snd r)) = None
  /\ trace (snd r) = [(Eth.eth_accounts, initialHooks)]
  /\ walletState (state (snd r)) = initialWalletState.
Proof.
  apply (check_without_accounts Scenes.quiet initialWorld).
  intros provider accounts [= <-] [= <-]. reflexivity.
Defined.

(** X8: on mount, when the provider reports an authorized account, the
    check goes on exactly as a connection attempt made after the
    accounts query. *)
Theorem check_with_accounts (env : Eth.Browser) (w : World Hooks)
    (provider : Eth.Provider) (a : string) (rest : list string) :
  Eth.ethereum env = Some provider ->
  Eth.accounts provider = Returned (a :: rest) ->
  checkIfWalletIsConnected env w
  = connectWallet env
      {| state := state w;
         trace := (trace w ++ [(Eth.eth_accounts, state w)])%list |}.
Proof.
  intros He Ha.
  unfold checkIfWalletIsConnected, tryCatch, bind, request.
  rewrite He, Ha.
  replace (0 <? Z.of_nat (List.length (a :: rest))) with true
    by (symmetry; apply Z.ltb_lt; cbn [List.length]; lia).
  match goal with
  | |- context [connectWallet env ?w1] =>
      pose proof (connectWallet_returns env w1) as R;
      destruct (connectWallet env w1) as [o w']
  end.
  cbn in R. now subst o.
Qed.

Lemma check_with_accounts_witness :
  checkIfWalletIsConnected (Sample.browser "0x1") initialWorld
  = connectWallet (Sample.browser "0x1")
      {| state := initialHooks;
         trace := [(Eth.eth_accounts, initialHooks)] |}.
Proof.
  apply (check_with_accounts (Sample.browser "0x1") initialWorld
           (Sample.provider "0x1")
           "0x52908400098527886e0f7030069857d2e4169ee7" []);
    reflexivity.
Defined.

(** The answer of [getCurrentNetwork], and the world it leaves. *)
Lemma getCurrentNetwork_answer (env : Eth.Browser) (w : World Hooks) :
  getCurrentNetwork env w
  = match Eth.ethereum env with
    | None => (Returned unknownNetwork, w)
    | Some provider =>
        (Returned match Eth.chainId provider with
                  | Returned c => spreadInfo c (getNetworkInfo c)
                  | Threw _ => unknownNetwork
                  end,
         {| state := state w;
            trace := (trace w ++ [(Eth.eth_chainId, state w)])%list |})
    end.
Proof.
  unfold getCurrentNetwork, tryCatch, bind, ret, request.
  destruct (Eth.ethereum env) as [provider|]; [|reflexivity].
  destruct (Eth.chainId provider); reflexivity.
Qed.

(** X9: a refresh never throws and never touches the client.  Without a
    client or an account it does nothing at all.  Otherwise it asks for
    the balance of the current account; when the balance is read and
    converted, the converted balance and the network
    [getCurrentNetwork] answers are stored and every other field is
    kept; when the balance cannot be read or converted the failure is
    swallowed: the state stays as it was and the chain id is not asked
    for. *)
Theorem updateBalance_frame (env : Eth.Browser) (w : World Hooks) :
  let r := updateBalance env w in
  let before := walletState (state w) in
  let after := walletState (state (snd r)) in
  fst r = Returned tt
  /\ web3 (state (snd r)) = web3 (state w)
  /\ match web3 (state w), truthy (account before) with
     | Some client, Some acct =>
         let asked :=
           {| state := state w;
              trace := (trace w
                        ++ [(Eth.eth_getBalance (Some acct), state w)])%list |} in
         match Eth.getBalance client (Some acct) with
         | Returned wei =>
             match Eth.utils_fromWei client (BigInt.toString wei)
                     Web3Utils.ether with
             | Returned converted =>
                 exists network,
                   fst (getCurrentNetwork env asked) = Returned network
                   /\ trace (snd r) = trace (snd (getCurrentNetwork env asked))
                   /\ after
                      = {| isConnected := isConnected before;
                           account := account before;
                           balance := Some converted;
                           error := error before;
                           network := networkOf network;
                           showSendForm := showSendForm before |}
             | Threw _ => snd r = asked
             end
         | Threw _ => snd r = asked
         end
     | _, _ => snd r = w
     end.
Proof.
  cbn zeta. unfold updateBalance, bind, getState, tryCatch, lift, request, ret.
  destruct (web3 (state w)) as [client|] eqn:Hc; [|repeat split; assumption].
  destruct (truthy (account (walletState (state w)))) as [acct|];
    [|repeat split; assumption].
  destruct (Eth.getBalance client (Some acct)) as [wei|e];
    [|repeat split; assumption].
  destruct (Eth.utils_fromWei client (BigInt.toString wei) Web3Utils.ether)
    as [converted|e]; [|repeat split; assumption].
  rewrite getCurrentNetwork_answer.
  unfold setWalletState, setState.
  destruct (Eth.ethereum env) as [provider|]; cbn;
    (split; [reflexivity|]); (split; [assumption|]);
    eexists; repeat split.
Qed.

(** X10: switching to mainnet never touches the hooks.  Without a
    provider it does nothing.  With one it sends the switch request
    once; when the provider rejects it with a value whose code is 4902
    it then sends the request to add the chain, once, and returns
    whatever the answer to that; it never asks for the switch a second
    time.  It returns normally in every case but one: a rejection of
    the switch with null or undefined, whose code cannot be read, makes
    it throw the TypeError of that reading. *)
Theorem switchToMainnet_requests (env : Eth.Browser) (w : World Hooks) :
  let r := switchToMainnet env w in
  let switch := Eth.wallet_switchEthereumChain "0x1" in
  let add := Eth.wallet_addEthereumChain "0x1" in
  state (snd r) = state w
  /\ match Eth.ethereum env with
     | None => r = (Returned tt, w)
     | Some provider =>
         match Eth.switchEthereumChain provider "0x1" with
         | Returned _ =>
             fst r = Returned tt
             /\ List.map fst (trace (snd r))
                = (List.map fst (trace w) ++ [switch])%list
         | Threw Nullish =>
             fst r = Threw (ErrorObject "TypeError" None)
             /\ List.map fst (trace (snd r))
                = (List.map fst (trace w) ++ [switch])%list
         | Threw (ErrorObject _ code) | Threw (OtherValue _ code) =>
             fst r = Returned tt
             /\ List.map fst (trace (snd r))
                = (List.map fst (trace w)
                   ++ match code with
                      | Some 4902 => [switch; add]
                      | _ => [switch]
                      end)%list
         end
     end.
Proof.
  cbn zeta. split; [apply switchToMainnet_state|].
  unfold switchToMainnet, tryCatch, bind, lift, request, ret.
  destruct (Eth.ethereum env) as [provider|]; [|reflexivity].
  destruct (Eth.switchEthereumChain provider "0x1") as [[]|[m code|m code|]];
    cbn [codeOf fst snd trace].
  - split; [reflexivity | now rewrite map_app].
  - destruct (option_Z_eq_dec code (Some 4902)) as [->|Hne].
    + destruct (Eth.addEthereumChain provider "0x1") as [[]|e']; cbn;
        (split; [reflexivity | now rewrite !map_app, <- app_assoc]).
    + rewrite !(other_code code _ _ Hne). cbn.
      split; [reflexivity | now rewrite map_app].
  - destruct (option_Z_eq_dec code (Some 4902)) as [->|Hne].
    + destruct (Eth.addEthereumChain provider "0x1") as [[]|e']; cbn;
        (split; [reflexivity | now rewrite !map_app, <- app_assoc]).
    + rewrite !(other_code code _ _ Hne). cbn.
      split; [reflexivity | now rewrite map_app].
  - split; [reflexivity | now rewrite map_app].
Qed.

End WalletConnectMore.

(** * More properties of the transfer form *)
Module SendTransactionMore.
Import SendTransaction SendTransactionFacts NumeralFacts.

(** X12: a transaction is only ever submitted after every check has
    passed, and it is the one the form describes. *)
Theorem submitted_transaction_checked (p : SendTransactionProps)
    (w : World TransactionState) (tx : Eth.Transaction) (st : TransactionState) :
  trace (snd (sendTransaction p w))
    = (trace w ++ [(Eth.eth_sendTransaction tx, st)])%list ->
  exists client acct,
    web3 p = Some client
    /\ truthy (account p) = Some acct
    /\ isValidAddress p (to (state w)) = true
    /\ isValidAmount (amount (state w)) = true
    /\ Number.gtb (totalCostOf p (state w)) (currentBalance p) = false
    /\ Eth.from tx = acct
    /\ Eth.to tx = to (state w)
    /\ Eth.gas tx = gasLimit (state w)
    /\ Eth.utils_toWei client (amount (state w)) Web3Utils.ether
       = Returned (Eth.value tx)
    /\ Eth.utils_toWei client (gasPrice (state w)) Web3Utils.gwei
       = Returned (Eth.gasPrice tx).
Proof.
  unfold_send. cbn.
  destruct (web3 p) as [w3|] eqn:Hw3; cbn;
    [|intros H; now apply no_new_entry in H].
  destruct (truthy (account p)) as [acct|]; cbn;
    [|intros H; now apply no_new_entry in H].
  destruct (isValidAddress p (to (state w))); cbn;
    [|intros H; now apply no_new_entry in H].
  destruct (isValidAmount (amount (state w))); cbn;
    [|intros H; now apply no_new_entry in H].
  destruct (Number.gtb _ _); cbn;
    [intros H; now apply no_new_entry in H|].
  destruct (Eth.utils_toWei w3 (amount (state w)) Web3Utils.ether) as [a|e] eqn:Ea; cbn;
    [|intros H; now apply no_new_entry in H].
  destruct (Eth.utils_toWei w3 (gasPrice (state w)) Web3Utils.gwei) as [g|e] eqn:Eg; cbn;
    [|intros H; now apply no_new_entry in H].
  match goal with
  | |- context [Eth.sendTransaction w3 ?t] => set (sent := t)
  end.
  destruct (Eth.sendTransaction w3 sent) as [receipt|e]; cbn;
    intros H; apply app_inv_head in H; injection H as Htx Hst;
    exists w3, acct; subst tx; repeat split; assumption.
Qed.

Lemma submitted_transaction_checked_witness :
  let p := Sample.props (Some Sample.web3) in
  let w := Sample.form Sample.recipient "0.5" in
  isValidAddress p Sample.recipient = true
  /\ isValidAmount "0.5" = true
  /\ Number.gtb (totalCostOf p (state w)) (currentBalance p) = false.
Proof.
  destruct (submitted_transaction_checked
              (Sample.props (Some Sample.web3))
              (Sample.form Sample.recipient "0.5")
              {| Eth.from := "0x52908400098527886e0f7030069857d2e4169ee7";
                 Eth.to := Sample.recipient;
                 Eth.value := "500000000000000000";
                 Eth.gas := "21000";
                 Eth.gasPrice := "20000000000" |}
              (submitting (state (Sample.form Sample.recipient "0.5"))))
    as (client & acct & _ & _ & Ha & Hv & Hb & _).
  - vm_compute. reflexivity.
  - exact (conj Ha (conj Hv Hb)).
Defined.

(** X13: every run of the send handler returns normally, sends at most
    one request, leaves gas price and gas limit alone, ends with the
    processing flag cleared if it was clear at the start, and ends with
    an error or a success message to show; recipient and amount are
    kept, or cleared together with a success message. *)
Theorem sendTransaction_total (p : SendTransactionProps)
    (w : World TransactionState) :
  let r := sendTransaction p w in
  let before := state w in
  let after := state (snd r) in
  fst r = Returned tt
  /\ (trace (snd r) = trace w
      \/ exists tx, trace (snd r)
           = (trace w ++ [(Eth.eth_sendTransaction tx, submitting before)])%list)
  /\ gasPrice after = gasPrice before
  /\ gasLimit after = gasLimit before
  /\ (isProcessing before = false -> isProcessing after = false)
  /\ (error after <> None \/ success after <> None)
  /\ ((to after = to before /\ amount after = amount before)
      \/ (to after = "" /\ amount after = "" /\ success after <> None)).
Proof.
  unfold_send. cbn.
  destruct (web3 p) as [w3|]; cbn;
    [|repeat split; auto; left; discriminate].
  destruct (truthy (account p)) as [acct|]; cbn;
    [|repeat split; auto; left; discriminate].
  destruct (isValidAddress p (to (state w))); cbn;
    [|repeat split; auto; left; discriminate].
  destruct (isValidAmount (amount (state w))); cbn;
    [|repeat split; auto; left; discriminate].
  destruct (Number.gtb _ _); cbn;
    [repeat split; auto; left; discriminate|].
  destruct (Eth.utils_toWei w3 (amount (state w)) Web3Utils.ether) as [a|e]; cbn;
    [|repeat split; auto; left; discriminate].
  destruct (Eth.utils_toWei w3 (gasPrice (state w)) Web3Utils.gwei) as [g|e]; cbn;
    [|repeat split; auto; left; discriminate].
  match goal with
  | |- context [Eth.sendTransaction w3 ?t] => set (sent := t)
  end.
  destruct (Eth.sendTransaction w3 sent) as [receipt|e]; cbn.
  - repeat split; auto.
    + right. now exists sent.
    + right. discriminate.
    + right. repeat split. discriminate.
  - repeat split; auto.
    + right. now exists sent.
    + left. discriminate.
Qed.


(** X14: whenever the gas price is a decimal numeral the conversion to
    wei accepts and the gas limit is a non-negative integer literal,
    [calculateFee] takes the exact path: its result is the conversion
    of the integer product of the two, whatever their size, and the
    floating-point fallback is not used. *)
Theorem calculateFee_exact (p : SendTransactionProps) (ts : TransactionState)
    (client : Eth.Web3) (wei : string) (limit : Z) :
  web3 p = Some client ->
  Eth.conforms client ->
  Web3Utils.toWei (gasPrice ts) Web3Utils.gwei = Some wei ->
  BigInt.ofString (gasLimit ts) = Some limit ->
  0 <= limit ->
  exists price,
    0 <= price
    /\ BigInt.ofString wei = Some price
    /\ Web3Utils.fromWei (BigInt.toString (price * limit)) Web3Utils.ether
       = Some (calculateFee p ts).
Proof.
  intros Hw (HtoWei & HfromWei) Hwei Hlimit Hpos.
  destruct (toWei_numeral _ _ _ Hwei) as (price & Hprice & ->).
  exists price. split; [assumption|].
  split; [now apply BigInt_ofString_toString|].
  destruct (fromWei_defined (price * limit) Web3Utils.ether ltac:(nia))
    as (fee & Hfee).
  rewrite Hfee. f_equal. unfold calculateFee. rewrite Hw.
  assert (Hne : nonEmpty (gasPrice ts) = true).
  { destruct (gasPrice ts); [discriminate Hwei | reflexivity]. }
  rewrite Hne. cbn [andb].
  destruct (nonEmpty (gasLimit ts)) eqn:El.
  - unfold preciseFee.
    rewrite (HtoWei _ _ _ Hwei), Hlimit, BigInt_ofString_toString by assumption.
    now rewrite (HfromWei _ _ _ Hfee).
  - destruct (gasLimit ts); [|discriminate El].
    vm_compute in Hlimit. injection Hlimit as <-.
    rewrite Z.mul_0_r in Hfee. vm_compute in Hfee. now injection Hfee.
Qed.

Lemma calculateFee_exact_witness :
  let p := Sample.props (Some Sample.web3) in
  let ts := withGasPrice "1.5" (state (Sample.form "" "")) in
  calculateFee p ts = "0.0000315".
Proof.
  destruct (calculateFee_exact (Sample.props (Some Sample.web3))
              (withGasPrice "1.5" (state (Sample.form "" "")))
              Sample.web3 "1500000000" 21000)
    as (price & _ & Hp & Hfee).
  - reflexivity.
  - apply sample_conforms.
  - vm_compute. reflexivity.
  - vm_compute. reflexivity.
  - lia.
  - cbv zeta. vm_compute in Hp. injection Hp as <-.
    assert (E : Web3Utils.fromWei (BigInt.toString (1500000000 * 21000))
                  Web3Utils.ether = Some "0.0000315")
      by (vm_compute; reflexivity).
    rewrite E in Hfee. congruence.
Defined.

(** X15: fetching the gas price never throws and changes nothing but the
    gas price.  Without a client it does nothing at all; with one it
    sends one request and stores the price the client answers,
    converted to gwei by the client, and the default of 20 exactly when
    the price cannot be had or cannot be converted. *)
Theorem getGasPrice_frame (p : SendTransactionProps)
    (w : World TransactionState) :
  getGasPrice p w
  = match web3 p with
    | None => (Returned tt, w)
    | Some client =>
        let stored :=
          match Eth.getGasPrice client with
          | Returned price =>
              match Eth.utils_fromWei client (BigInt.toString price)
                      Web3Utils.gwei with
              | Returned gwei => gwei
              | Threw _ => "20"
              end
          | Threw _ => "20"
          end in
        (Returned tt,
         {| state := withGasPrice stored (state w);
            trace := (trace w ++ [(Eth.eth_gasPrice, state w)])%list |})
    end.
Proof.
  unfold getGasPrice, tryCatch, bind, ret, lift, request, setState.
  destruct (web3 p) as [client|]; [|reflexivity].
  destruct (Eth.getGasPrice client) as [price|e]; cbn; [|reflexivity].
  destruct (Eth.utils_fromWei client _ _); reflexivity.
Qed.

(** X16: estimating the gas never throws and changes nothing but the gas
    limit.  It does nothing at all without a client or an account or
    while the recipient or the amount is empty.  Otherwise, when the
    amount converts to wei, it asks the client for an estimate of the
    transfer of that value from the account to the recipient and
    stores the numeral of the estimate, which [BigInt] reads back when
    it is not negative; it stores 21000 when the estimate cannot be
    had, and also, without asking, when the amount cannot be
    converted. *)
Theorem estimateGas_frame (p : SendTransactionProps)
    (w : World TransactionState) :
  let ts := state w in
  estimateGas p w
  = match web3 p, truthy (account p) with
    | Some client, Some acct =>
        if nonEmpty (to ts) && nonEmpty (amount ts) then
          match Eth.utils_toWei client (amount ts) Web3Utils.ether with
          | Returned value =>
              (Returned tt,
               {| state :=
                    withGasLimit
                      match Eth.estimateGas client acct (to ts) value with
                      | Returned gas => BigInt.toString gas
                      | Threw _ => "21000"
                      end ts;
                  trace := (trace w
                            ++ [(Eth.eth_estimateGas acct (to ts) value, ts)])%list |})
          | Threw _ =>
              (Returned tt,
               {| state := withGasLimit "21000" ts; trace := trace w |})
          end
        else (Returned tt, w)
    | _, _ => (Returned tt, w)
    end
  /\ forall gas, 0 <= gas -> BigInt.ofString (BigInt.toString gas) = Some gas.
Proof.
  cbn zeta. split; [|apply BigInt_ofString_toString].
  unfold estimateGas, tryCatch, bind, ret, lift, request, setState, getState.
  destruct (web3 p) as [client|]; [|reflexivity].
  destruct (truthy (account p)) as [acct|]; [|reflexivity].
  destruct (nonEmpty (to (state w)) && nonEmpty (amount (state w)));
    [|reflexivity].
  destruct (Eth.utils_toWei client _ _) as [value|e]; cbn; [|reflexivity].
  destruct (Eth.estimateGas client acct _ value); reflexivity.
Qed.

(** X18: an amount written as a whole number below 2^53 is valid
    exactly when the number is not zero. *)
Theorem isValidAmount_whole (n : Z) :
  0 <= n < 2 ^ 53 -> isValidAmount (Number.stringOfZ n) = (0 <? n).
Proof.
  intros [Hn Hlt]. unfold isValidAmount.
  rewrite parseFloat_numeral by assumption.
  destruct n as [|p|p]; try lia; [reflexivity|].
  rewrite (NumberFacts.ofZ_small p Hlt). reflexivity.
Qed.

Lemma isValidAmount_whole_witness :
  isValidAmount "25" = true /\ isValidAmount "0" = false.
Proof.
  split.
  - apply (isValidAmount_whole 25). lia.
  - apply (isValidAmount_whole 0). lia.
Defined.

End SendTransactionMore.
